(** * Python test runner: the results reporter, the argument sanitizer and
    the run driver of [runner/__init__.py], embedded in Rocq.

    Text is [string] (a byte per character, as CPython's [str] behaves on
    the ASCII text handled here), Python lists are [list], the insertion
    ordered [dict] of test records is an association list, and a hook that
    can raise returns the mutated object together with the exception, since
    a Python object keeps the mutations made before a raise. *)

From Stdlib Require Import String Ascii List ZArith Bool Arith Lia.
From Stdlib Require Import Permutation Sorted DecimalString.
Import ListNotations.
Open Scope string_scope.

(** ** Python [str] operations used by the runner *)

Module Text.

(** [s.startswith(p)] *)
Definition startswith (s p : string) : bool := String.prefix p s.

(** [s[n:]] *)
Fixpoint drop (n : nat) (s : string) : string :=
  match n, s with
  | O, _ => s
  | S _, EmptyString => EmptyString
  | S k, String _ s' => drop k s'
  end.

(** [sep.join(parts)] *)
Fixpoint join (sep : string) (parts : list string) : string :=
  match parts with
  | [] => ""
  | [p] => p
  | p :: rest => p ++ sep ++ join sep rest
  end.

(** [s.split(sep)] for a non-empty [sep]: cut at each occurrence of [sep],
    scanning from the left, occurrences not overlapping.  [skip] counts the
    characters of a separator still to be passed over. *)
Fixpoint split_go (sep : string) (skip : nat) (s : string) : list string :=
  match s with
  | EmptyString => [""]
  | String c s' =>
      match skip with
      | S k => split_go sep k s'
      | O =>
          if String.prefix sep s
          then "" :: split_go sep (String.length sep - 1) s'
          else match split_go sep 0 s' with
               | h :: t => String c h :: t
               | [] => [String c ""]
               end
      end
  end.

Definition split (sep s : string) : list string := split_go sep 0 s.

(** [s.replace(old, new)]: every occurrence of [old], leftmost first and
    not overlapping, becomes [new]; an empty [old] puts [new] before every
    character and at the end. *)
Fixpoint replace_go (old new : string) (skip : nat) (s : string) : string :=
  match s with
  | EmptyString => ""
  | String c s' =>
      match skip with
      | S k => replace_go old new k s'
      | O =>
          if String.prefix old s
          then new ++ replace_go old new (String.length old - 1) s'
          else String c (replace_go old new 0 s')
      end
  end.

Fixpoint intersperse (new s : string) : string :=
  match s with
  | EmptyString => new
  | String c s' => new ++ String c (intersperse new s')
  end.

Definition replace (old new s : string) : string :=
  match old with
  | EmptyString => intersperse new s
  | String _ _ => replace_go old new 0 s
  end.

(** The newline and the two blanks [textwrap] knows. *)
Definition nl : string := String "010"%char "".
Definition is_blank (c : ascii) : bool :=
  Ascii.eqb c " "%char || Ascii.eqb c "009"%char.

(** Lines of a text, as the multi-line regular expressions of [re] see
    them: [^] matches at the start and after every newline. *)
Definition lines (s : string) : list string := split nl s.
Definition unlines (ls : list string) : string := join nl ls.

(** [re.sub("^E ", "  ", s, flags=re.M)]: a line starting with the marker
    [E ] has these two characters replaced by two blanks. *)
Definition sub_marker_line (line : string) : string :=
  if startswith line "E " then "  " ++ drop 2 line else line.

Definition re_sub_marker (s : string) : string :=
  unlines (map sub_marker_line (lines s)).

(** The pieces of [textwrap.dedent]. *)

Fixpoint all_blank (s : string) : bool :=
  match s with
  | EmptyString => true
  | String c s' => is_blank c && all_blank s'
  end.

(** a line matched by [_whitespace_only_re]: one or more blanks only *)
Definition whitespace_only (line : string) : bool :=
  negb (line =? "") && all_blank line.

(** the leading blanks of a line, which is what the group of
    [_leading_whitespace_re] captures *)
Fixpoint leading_ws (s : string) : string :=
  match s with
  | EmptyString => ""
  | String c s' => if is_blank c then String c (leading_ws s') else ""
  end.

(** [_leading_whitespace_re] matches a line: a character that is neither
    blank nor newline follows its leading blanks. *)
Definition has_content (line : string) : bool := negb (all_blank line).

(** the [for i, (x, y) in enumerate(zip(margin, indent))] loop: [margin] cut
    at the first position where the two differ *)
Fixpoint zip_cut (margin indent : string) : string :=
  match margin, indent with
  | String x m', String y i' =>
      if Ascii.eqb x y then String x (zip_cut m' i') else ""
  | _, _ => margin
  end.

(** one turn of the [for indent in indents] loop *)
Definition margin_step (margin : option string) (indent : string)
  : option string :=
  match margin with
  | None => Some indent
  | Some m =>
      if startswith indent m then Some m
      else if startswith m indent then Some indent
      else Some (zip_cut m indent)
  end.

(** [re.sub(r'(?m)^' + margin, '', text)] on one line *)
Definition strip_margin (margin line : string) : string :=
  if startswith line margin then drop (String.length margin) line else line.

(** [textwrap.dedent(text)]: whitespace-only lines are emptied, the margin
    is the leading blanks common to the lines with content, and a margin
    that is not empty is taken off the start of every line. *)
Definition dedent (text : string) : string :=
  let ls := map (fun l => if whitespace_only l then "" else l) (lines text) in
  let indents := map leading_ws (filter has_content ls) in
  match fold_left margin_step indents None with
  | Some (String c m) => unlines (map (strip_margin (String c m)) ls)
  | _ => unlines ls
  end.

(** [old] occurs in [s]. *)
Definition occurs (old s : string) : Prop := exists a b, s = a ++ old ++ b.

(** No occurrence of [old] in [a ++ old ++ b] starts inside [a]. *)
Definition earliest (old a b : string) : Prop :=
  forall a1 a2, a = a1 ++ a2 -> a2 <> "" ->
    String.prefix old (a2 ++ old ++ b) = false.

(** Replacing every occurrence, as the specification has it: the leftmost
    occurrence is replaced, then those of the text after it. *)
Inductive Replaced (old new : string) : string -> string -> Prop :=
| Replaced_none : forall s, ~ occurs old s -> Replaced old new s s
| Replaced_first : forall a b r,
    earliest old a b -> Replaced old new b r ->
    Replaced old new (a ++ old ++ b) (a ++ new ++ r).

(** No proper, non-empty end of [old] is a start of it: two occurrences of
    [old] cannot overlap. *)
Definition border_free (old : string) : bool :=
  forallb (fun k => negb (String.prefix (drop k old) old))
          (seq 1 (String.length old - 1)).

(** [s] with [f] applied to each character. *)
Fixpoint map_chars (f : ascii -> ascii) (s : string) : string :=
  match s with
  | EmptyString => ""
  | String c s' => String (f c) (map_chars f s')
  end.

End Text.

(** ** The argument sanitizer *)

Module Sanitizer.

(** One turn of the [for arg in args] loop of [_sanitize_args]; the loop
    state is [(clean, skip_next)]. *)
Definition step (st : list string * bool) (arg : string) : list string * bool :=
  let '(clean, skip_next) := st in
  if skip_next then (clean, false)
  else if arg =? "--tb" then (clean, true)
  else if Text.startswith arg "--tb=" then (clean, skip_next)
  else ((clean ++ [arg])%list, skip_next).

Definition _sanitize_args (args : list string) : list string :=
  (fst (fold_left step args ([], false)) ++ ["--tb=no"])%list.

(** A traceback-verbosity flag, in either form. *)
Definition is_tb_flag (arg : string) : bool :=
  (arg =? "--tb") || Text.startswith arg "--tb=".

(** The sanitizer as the specification words it: drop [--tb] together with
    the token after it, drop every [--tb=...], keep the rest in order. *)
Fixpoint strip_tb (args : list string) : list string :=
  match args with
  | [] => []
  | a :: rest =>
      if a =? "--tb" then
        match rest with
        | [] => []
        | _ :: rest' => strip_tb rest'
        end
      else if Text.startswith a "--tb=" then strip_tb rest
      else a :: strip_tb rest
  end.

(** [Subseq xs ys]: [xs] is [ys] with some elements left out, the order of
    the others kept. *)
Inductive Subseq {A : Type} : list A -> list A -> Prop :=
| Subseq_nil : Subseq [] []
| Subseq_skip : forall x xs ys, Subseq xs ys -> Subseq xs (x :: ys)
| Subseq_keep : forall x xs ys, Subseq xs ys -> Subseq (x :: xs) (x :: ys).

End Sanitizer.

(** ** Exceptions *)

Inductive exn : Type :=
| ValueError (msg : string)
| AttributeError (msg : string)
| TypeError (msg : string)
| IndexError (msg : string)
| KeyError (key : string)
| JSONDecodeError.

(** ** [os.path.commonpath] on POSIX, for the two paths the runner passes *)

Module PosixPath.

(** [p[:1] == sep] *)
Definition isabs (p : string) : bool := Text.startswith p "/".

(** [[c for c in path.split(sep) if c and c != curdir]] *)
Definition components (p : string) : list string :=
  filter (fun c => negb (c =? "") && negb (c =? ".")) (Text.split "/" p).

(** Python's [<] on lists of [str]: the first unequal pair decides, a
    proper prefix is smaller. *)
Fixpoint list_lt (x y : list string) : bool :=
  match x, y with
  | _, [] => false
  | [], _ :: _ => true
  | c :: x', d :: y' => if c =? d then list_lt x' y' else String.ltb c d
  end.

(** [min([a, b])] and [max([a, b])]: the first of two equal ones. *)
Definition min2 (a b : list string) : list string :=
  if list_lt b a then b else a.
Definition max2 (a b : list string) : list string :=
  if list_lt a b then b else a.

(** The loop [for i, c in enumerate(s1): if c != s2[i]: common = s1[:i];
    break], with [common = s1] before it; [s2[i]] past the end of [s2]
    raises. *)
Fixpoint common_loop (s1 s2 : list string) : exn + list string :=
  match s1 with
  | [] => inr []
  | c :: t1 =>
      match s2 with
      | [] => inl (IndexError "list index out of range")
      | d :: t2 =>
          if c =? d
          then match common_loop t1 t2 with
               | inl e => inl e
               | inr r => inr (c :: r)
               end
          else inr []
      end
  end.

(** [pathlib] drops from a path only what [components] drops too (empty
    and [.] components); it leaves the first character as it is, so
    [Path(p)] and [p] have the same common path and [Path] is left out. *)
Definition commonpath (p1 p2 : string) : exn + string :=
  if Bool.eqb (isabs p1) (isabs p2) then
    let s1 := min2 (components p1) (components p2) in
    let s2 := max2 (components p1) (components p2) in
    match common_loop s1 s2 with
    | inl e => inl e
    | inr common =>
        inr ((if isabs p1 then "/" else "") ++ Text.join "/" common)
    end
  else inl (ValueError "Can't mix absolute and relative paths").

(** The longest common prefix of two component lists, as the specification
    has it. *)
Fixpoint lcp (x y : list string) : list string :=
  match x, y with
  | c :: x', d :: y' => if c =? d then c :: lcp x' y' else []
  | _, _ => []
  end.

Definition Prefix (z x : list string) : Prop := exists r, x = (z ++ r)%list.

End PosixPath.

(** ** Insertion-ordered [dict] with [str] keys *)

Module Dict.

Definition t (V : Type) : Type := list (string * V).

(** [d[k]], [None] standing for the [KeyError] *)
Fixpoint get {V : Type} (k : string) (d : t V) : option V :=
  match d with
  | [] => None
  | (k', v) :: d' => if k' =? k then Some v else get k d'
  end.

(** [k in d] *)
Definition mem {V : Type} (k : string) (d : t V) : bool :=
  match get k d with Some _ => true | None => false end.

(** [d[k] = v]: the value of an existing key is replaced where it stands,
    a new key goes to the end. *)
Fixpoint set {V : Type} (k : string) (v : V) (d : t V) : t V :=
  match d with
  | [] => [(k, v)]
  | (k', v') :: d' =>
      if k' =? k then (k', v) :: d' else (k', v') :: set k v d'
  end.

(** [d.values()] *)
Definition values {V : Type} (d : t V) : list V := map snd d.

(** [d.get(k, default)] *)
Definition get_default {V : Type} (k : string) (default : V) (d : t V) : V :=
  match get k d with Some v => v | None => default end.

End Dict.

(** ** The data model ([runner/data.py]) *)

Module Data.

Inductive Status : Type := PASS | FAIL | ERROR.

Definition Status_eqb (a b : Status) : bool :=
  match a, b with
  | PASS, PASS | FAIL, FAIL | ERROR, ERROR => true
  | _, _ => false
  end.

(** Modelled from the spec: [data.py] is not among the sources.  A
    TestRecord has a name, a status that defaults to passed, and an optional
    message, captured output and source text. *)
Record Test : Type := mkTest {
  name : string;
  status : Status;
  message : option string;
  output : option string;
  test_code : option string
}.

(** [Test(name)] *)
Definition Test_new (n : string) : Test := mkTest n PASS None None None.

(** Modelled from the spec: [Test.is_passing] is not among the sources.
    A record is passing while its status is passed. *)
Definition is_passing (t : Test) : bool := Status_eqb (status t) PASS.

(** Modelled from the spec: [Test.fail] and [Test.error] are not among the
    sources.  They set the status to failed, respectively errored, with the
    message built from the failure. *)
Definition fail (t : Test) (msg : option string) : Test :=
  mkTest (name t) FAIL msg (output t) (test_code t).

Definition error (t : Test) (msg : option string) : Test :=
  mkTest (name t) ERROR msg (output t) (test_code t).

(** [state.output = out] and [state.test_code = code] *)
Definition set_output (t : Test) (out : option string) : Test :=
  mkTest (name t) (status t) (message t) out (test_code t).

Definition set_test_code (t : Test) (code : option string) : Test :=
  mkTest (name t) (status t) (message t) (output t) code.

(** Modelled from the spec: [Results] is not among the sources.  A
    RunOutcome has an overall status that defaults to ok, an optional error
    message and the test records, appended at finish. *)
Record Results : Type := mkResults {
  r_status : Status;
  r_message : option string;
  r_tests : list Test
}.

(** [Results()] *)
Definition Results_new : Results := mkResults PASS None [].

(** Modelled from the spec: [Results.fail], [Results.error] and
    [Results.add] are not among the sources.  The first sets the overall
    status to failed, the second sets it to errored with the error message,
    the third appends a test record. *)
Definition Results_fail (r : Results) : Results :=
  mkResults FAIL (r_message r) (r_tests r).

Definition Results_error (r : Results) (msg : string) : Results :=
  mkResults ERROR (Some msg) (r_tests r).

Definition Results_add (r : Results) (t : Test) : Results :=
  mkResults (r_status r) (r_message r) (r_tests r ++ [t])%list.

(** Modelled from the spec: [Hierarchy] is not among the sources.  A
    TestIdentity is the engine's identifier, kept as it is. *)
Definition Hierarchy (nodeid : string) : string := nodeid.

End Data.

(** ** What the engine hands to the hooks *)

Module Engine.

Inductive Phase : Type := setup | call | teardown.

Definition Phase_eqb (a b : Phase) : bool :=
  match a, b with
  | setup, setup | call, call | teardown, teardown => true
  | _, _ => false
  end.

Inductive Outcome : Type := passed | failed | skipped.

Definition Outcome_eqb (a b : Outcome) : bool :=
  match a, b with
  | passed, passed | failed, failed | skipped, skipped => true
  | _, _ => false
  end.

(** [ReprFileLocation]: the crash locator *)
Record ReprFileLocation : Type := mkCrash {
  path : string;
  lineno : Z;
  crash_message : string
}.

(** What an exception representation holds ([ExceptionChainRepr],
    [ReprExceptionInfo]): [reprtraceback] stands for its rendering
    [str(trace)]. *)
Record LongRepr : Type := mkLongRepr {
  reprtraceback : string;
  reprcrash : option ReprFileLocation
}.

(** [report.longrepr] when it is not [None]: an exception representation,
    a [str], or an object of another type (a [FixtureLookupErrorRepr] for a
    missing fixture, the tuple of a skip), which has neither a
    [reprtraceback] nor a [reprcrash] attribute. *)
Inductive ReprValue : Type :=
| ExceptionRepr (lr : LongRepr)
| TextRepr (text : string)
| OpaqueRepr (type_name : string).

(** [TestReport] *)
Record Report : Type := mkReport {
  nodeid : string;
  when : Phase;
  outcome : Outcome;
  capstdout : string;
  longrepr : option ReprValue;
  fspath : string
}.

Record Config : Type := mkConfig { rootdir : string }.

(** [pytest.ExitCode] *)
Inductive ExitCode : Type :=
| OK | TESTS_FAILED | INTERRUPTED | INTERNAL_ERROR | USAGE_ERROR
| NO_TESTS_COLLECTED.

Definition ExitCode_value (e : ExitCode) : Z :=
  match e with
  | OK => 0 | TESTS_FAILED => 1 | INTERRUPTED => 2 | INTERNAL_ERROR => 3
  | USAGE_ERROR => 4 | NO_TESTS_COLLECTED => 5
  end%Z.

Definition ExitCode_name (e : ExitCode) : string :=
  match e with
  | OK => "OK" | TESTS_FAILED => "TESTS_FAILED"
  | INTERRUPTED => "INTERRUPTED" | INTERNAL_ERROR => "INTERNAL_ERROR"
  | USAGE_ERROR => "USAGE_ERROR"
  | NO_TESTS_COLLECTED => "NO_TESTS_COLLECTED"
  end.

(** [pytest.ExitCode(n)]; [None] stands for the [ValueError] *)
Definition ExitCode_of_int (n : Z) : option ExitCode :=
  match n with
  | 0 => Some OK | 1 => Some TESTS_FAILED | 2 => Some INTERRUPTED
  | 3 => Some INTERNAL_ERROR | 4 => Some USAGE_ERROR
  | 5 => Some NO_TESTS_COLLECTED
  | _ => None
  end%Z.

Definition ExitCode_eqb (a b : ExitCode) : bool :=
  (ExitCode_value a =? ExitCode_value b)%Z.

End Engine.

(** ** [ResultsReporter] *)

Module Reporter.
Import Data Engine.

Record ResultsReporter : Type := mkReporter {
  results : Results;
  tests : Dict.t Test;
  last_err : option string;
  config : option Config
}.

(** [ResultsReporter()] *)
Definition ResultsReporter_new : ResultsReporter :=
  mkReporter Results_new [] None None.

Definition set_tests (self : ResultsReporter) (d : Dict.t Test)
  : ResultsReporter :=
  mkReporter (results self) d (last_err self) (config self).

Definition set_results (self : ResultsReporter) (r : Results)
  : ResultsReporter :=
  mkReporter r (tests self) (last_err self) (config self).

Definition set_last_err (self : ResultsReporter) (m : option string)
  : ResultsReporter :=
  mkReporter (results self) (tests self) m (config self).

Definition pytest_configure (self : ResultsReporter) (cfg : Config)
  : ResultsReporter :=
  mkReporter (results self) (tests self) (last_err self) (Some cfg).

Section Hooks.

(** [Path.cwd()] *)
Variable cwd : string.
(** [pathlib]'s [Path(a) / b] *)
Variable path_join : string -> string -> string.
(** what looking up the source of a test in its file comes to: the text,
    or the fault of the lookup *)
Variable resolve_source : string -> string -> exn + string.

(** Modelled from the spec: [sort.py], with [TestOrder.function_source],
    is not among the sources.  The Ordering Adapter attaches the source text
    best-effort and swallows its own faults: a lookup that faults gives no
    source text. *)
Definition function_source (test_id source : string) : option string :=
  match resolve_source test_id source with
  | inl _ => None
  | inr text => Some text
  end.

Definition _make_message (trace : string) (crash : option ReprFileLocation)
  : exn + string :=
  let message := Text.dedent (Text.re_sub_marker trace) in
  match crash with
  | Some c =>
      match PosixPath.commonpath cwd (path c) with
      | inl e => inl e
      | inr common => inr (Text.replace common "." message)
      end
  | None => inr message
  end.

(** [".".join(report.nodeid.split("::")[1:])] *)
Definition test_name (report : Report) : string :=
  Text.join "." (tl (Text.split "::" (nodeid report))).

(** The lines under [# traceback that caused the issued, if any]:
    [if report.longrepr] lets pass whatever is neither [None] nor the empty
    [str], and the two attribute reads that follow raise for an object
    without them. *)
Definition failure_message (report : Report) : exn + option string :=
  match longrepr report with
  | None => inr None
  | Some (TextRepr "") => inr None
  | Some (ExceptionRepr lr) =>
      match _make_message (reprtraceback lr) (reprcrash lr) with
      | inl e => inl e
      | inr m => inr (Some m)
      end
  | Some (TextRepr _) =>
      inl (AttributeError "'str' object has no attribute 'reprtraceback'")
  | Some (OpaqueRepr type_name) =>
      inl (AttributeError
             ("'" ++ type_name
              ++ "' object has no attribute 'reprtraceback'"))
  end.

(** The block under [# handle test failure]. *)
Definition handle_failure (state : Test) (report : Report) : exn + Test :=
  if Outcome_eqb (outcome report) failed then
    match failure_message report with
    | inl e => inl e
    | inr msg =>
        if negb (Phase_eqb (when report) call)
        then inr (error state msg)
        else inr (fail state msg)
    end
  else inr state.

(** The last three lines of the hook; [self.config] is [None] until
    [pytest_configure] has run. *)
Definition attach_source (self : ResultsReporter) (state : Test)
  (report : Report) : exn + Test :=
  let test_id := Hierarchy (nodeid report) in
  match config self with
  | None =>
      inl (AttributeError "'NoneType' object has no attribute 'rootdir'")
  | Some cfg =>
      let source := path_join (rootdir cfg) (fspath report) in
      inr (set_test_code state (function_source test_id source))
  end.

(** [pytest_runtest_logreport]: the reporter after the call, with the
    exception the call raised, if any.  [state] is the record held in
    [self.tests], so each mutation of it is written back there. *)
Definition pytest_runtest_logreport (self : ResultsReporter) (report : Report)
  : ResultsReporter * option exn :=
  let name := test_name report in
  let tests1 :=
    if negb (Dict.mem name (tests self))
    then Dict.set name (Test_new name) (tests self)
    else tests self in
  let store := fun st => set_tests self (Dict.set name st tests1) in
  match Dict.get name tests1 with
  | None => (set_tests self tests1, Some (KeyError name))
  | Some state =>
      if Outcome_eqb (outcome report) passed
         && negb (Phase_eqb (when report) call)
      then (set_tests self tests1, None)
      else if negb (is_passing state)
      then (set_tests self tests1, None)
      else
        let state1 :=
          if negb (capstdout report =? "")
          then set_output state (Some (capstdout report))
          else state in
        match handle_failure state1 report with
        | inl e => (store state1, Some e)
        | inr state2 =>
            match attach_source self state2 report with
            | inl e => (store state2, Some e)
            | inr state3 => (store state3, None)
            end
        end
  end.

(** [pytest_exception_interact]; [trace] and [crash] are [err.chain[0][0]]
    and [err.chain[0][1]] of the representation of [call.excinfo]. *)
Definition pytest_exception_interact (self : ResultsReporter)
  (report_outcome : Outcome) (trace : string)
  (crash : option ReprFileLocation) : ResultsReporter * option exn :=
  if Outcome_eqb report_outcome failed then
    match _make_message trace crash with
    | inl e => (self, Some e)
    | inr m => (set_last_err self (Some m), None)
    end
  else (self, None).

(** [pytest_sessionfinish] *)
Definition pytest_sessionfinish (self : ResultsReporter) (exitstatus : Z)
  : ResultsReporter * option exn :=
  match ExitCode_of_int exitstatus with
  | None =>
      (self,
       Some (ValueError
               (NilZero.string_of_int (Z.to_int exitstatus)
                ++ " is not a valid ExitCode")))
  | Some exitcode =>
      let results1 :=
        if ExitCode_eqb exitcode TESTS_FAILED then Results_fail (results self)
        else if negb (ExitCode_eqb exitcode OK) then
          let message :=
            match last_err self with
            | Some m => m
            | None =>
                "Unexpected ExitCode." ++ ExitCode_name exitcode
                  ++ ": check logs for details"
            end in
          Results_error (results self) message
        else results self in
      (set_results self
         (fold_left Results_add (Dict.values (tests self)) results1), None)
  end.

(** The engine calling [pytest_runtest_logreport] once per report, on the
    same reporter. *)
Definition feed_reports (self : ResultsReporter) (reports : list Report)
  : ResultsReporter :=
  fold_left (fun s r => fst (pytest_runtest_logreport s r)) reports self.

End Hooks.

(** The record of a test name, if it has one. *)
Definition record (self : ResultsReporter) (name : string) : option Test :=
  Dict.get name (tests self).

(** The record the hook finds or creates for a name. *)
Definition state_of (self : ResultsReporter) (name : string) : Test :=
  match record self name with
  | Some t => t
  | None => Test_new name
  end.

(** [self.tests] once the hook has looked the name up. *)
Definition tests_with (self : ResultsReporter) (name : string) : Dict.t Test :=
  if negb (Dict.mem name (tests self))
  then Dict.set name (Test_new name) (tests self)
  else tests self.

(** The name has no record yet, or one that is still passing. *)
Definition fresh_or_passing (self : ResultsReporter) (name : string) : bool :=
  is_passing (state_of self name).

(** The crash path of the report's failure, if it has one, is absolute
    exactly when the working directory is: the two can be compared. *)
Definition crash_path_like_cwd (cwd : string) (report : Report) : bool :=
  match longrepr report with
  | Some (ExceptionRepr lr) =>
      match reprcrash lr with
      | Some c => Bool.eqb (PosixPath.isabs cwd) (PosixPath.isabs (path c))
      | None => true
      end
  | _ => true
  end.

(** What stands in the way of formatting the failure detail of a report,
    as the report shows it: a [longrepr] that passes [if report.longrepr]
    without being an exception representation, or a crash path that is
    absolute when the working directory is relative, or the reverse. *)
Definition detail_error (cwd : string) (report : Report) : option exn :=
  match longrepr report with
  | None => None
  | Some (ExceptionRepr lr) =>
      match reprcrash lr with
      | Some c =>
          if Bool.eqb (PosixPath.isabs cwd) (PosixPath.isabs (path c))
          then None
          else Some (ValueError "Can't mix absolute and relative paths")
      | None => None
      end
  | Some (TextRepr text) =>
      if text =? "" then None
      else Some (AttributeError
                   "'str' object has no attribute 'reprtraceback'")
  | Some (OpaqueRepr type_name) =>
      Some (AttributeError
              ("'" ++ type_name
               ++ "' object has no attribute 'reprtraceback'"))
  end.

(** The report is a passed setup or teardown report, or its record has
    already failed: one of the two guards of the hook returns. *)
Definition returns_early (self : ResultsReporter) (report : Report) : bool :=
  (Outcome_eqb (outcome report) passed
   && negb (Phase_eqb (when report) call))
  || negb (fresh_or_passing self (test_name report)).

(** What reading [self.config.rootdir] raises. *)
Definition unconfigured_error (self : ResultsReporter) : option exn :=
  match config self with
  | None =>
      Some (AttributeError "'NoneType' object has no attribute 'rootdir'")
  | Some _ => None
  end.

End Reporter.

(** ** The run driver *)

Module Driver.

(** What [json.loads] returns. *)
#[local] Unset Elimination Schemes.
Inductive JSON : Type :=
| JNull
| JBool (b : bool)
| JNum (n : Z)
| JStr (s : string)
| JArr (items : list JSON)
| JObj (members : list (string * JSON)).
#[local] Set Elimination Schemes.

(** What the driver does to the file system. *)
Inductive FsAction : Type :=
| WriteText (file text : string)
| Chmod (file : string) (mode : Z).

(** The characters of a [str], as iterating over it gives them. *)
Fixpoint chars (s : string) : list string :=
  match s with
  | EmptyString => []
  | String c s' => String c "" :: chars s'
  end.

Section Run.

(** [pathlib]'s [joinpath] *)
Variable joinpath : string -> string -> string.
Variable json_loads : string -> exn + Driver.JSON.
(** [pytest.main(args, plugins=[reporter])]: the reporter when the engine
    is done with it *)
Variable pytest_main :
  list string -> Reporter.ResultsReporter -> Reporter.ResultsReporter.
(** [Results.as_json] *)
Variable as_json : Data.Results -> string.

(** [config_data.get('files', {}).get('test', [])] *)
Definition config_test_entry (config_data : JSON) : exn + JSON :=
  match config_data with
  | JObj members =>
      match Dict.get_default "files" (JObj []) members with
      | JObj files => inr (Dict.get_default "test" (JArr []) files)
      | _ => inl (AttributeError "object has no attribute 'get'")
      end
  | _ => inl (AttributeError "object has no attribute 'get'")
  end.

(** [indir.joinpath(filename)] for each [filename] of the loop *)
Fixpoint join_all (indir : string) (filenames : list JSON)
  : exn + list string :=
  match filenames with
  | [] => inr []
  | JStr f :: rest =>
      match join_all indir rest with
      | inl e => inl e
      | inr l => inr (joinpath indir f :: l)
      end
  | _ :: _ => inl (TypeError "expected str, bytes or os.PathLike object")
  end.

(** The [for filename in ...] loop: a list gives its items, a [dict] its
    keys and a [str] its characters; nothing else can be iterated. *)
Definition config_test_files (indir : string) (config_data : JSON)
  : exn + list string :=
  match config_test_entry config_data with
  | inl e => inl e
  | inr (JArr items) => join_all indir items
  | inr (JObj members) => inr (map (fun kv => joinpath indir (fst kv)) members)
  | inr (JStr s) => inr (map (joinpath indir) (chars s))
  | inr _ => inl (TypeError "object is not iterable")
  end.

(** The test files [run] resolves; [config_text] is the text of
    [.meta/config.json] when that is a file. *)
Definition resolve_test_files (slug indir : string)
  (config_text : option string) : exn + list string :=
  let from_config :=
    match config_text with
    | Some text =>
        match json_loads text with
        | inl e => inl e
        | inr config_data => config_test_files indir config_data
        end
    | None => inr []
    end in
  match from_config with
  | inl e => inl e
  | inr [] =>
      inr [joinpath indir (Text.replace "-" "_" slug ++ "_test.py")]
  | inr test_files => inr test_files
  end.

(** The literal handed to [chmod]: Python reads [664] in base ten. *)
Definition results_mode : Z := 664.

(** [run]: the file system actions of a run, or the exception raised before
    any of them. *)
Definition run (slug indir outdir : string) (args : option (list string))
  (config_text : option string) : exn + list FsAction :=
  match resolve_test_files slug indir config_text with
  | inl e => inl e
  | inr test_files =>
      let out_file := joinpath outdir "results.json" in
      let reporter := Reporter.ResultsReporter_new in
      let argv :=
        (Sanitizer._sanitize_args
           (match args with Some (a :: l) => a :: l | _ => [] end)
         ++ test_files)%list in
      let reporter' := pytest_main argv reporter in
      inr [WriteText out_file (as_json (Reporter.results reporter'));
           Chmod out_file results_mode]
  end.

End Run.

(** The config is an object whose nested test-file list is absent (no
    [files] member, or a [files] object without [test]) or empty. *)
Definition test_list_absent_or_empty (config_data : JSON) : bool :=
  match config_data with
  | JObj members =>
      match Dict.get "files" members with
      | None => true
      | Some (JObj files) =>
          match Dict.get "test" files with
          | None => true
          | Some (JArr []) => true
          | Some _ => false
          end
      | Some _ => false
      end
  | _ => false
  end.

(** Permission bits of a mode, as [chmod(2)] reads it. *)
Definition mode_bit (mode : Z) (i : Z) : bool := Z.testbit mode i.

Record Perm : Type := mkPerm { can_read : bool; can_write : bool; can_exec : bool }.

Definition owner_perm (mode : Z) : Perm :=
  mkPerm (mode_bit mode 8) (mode_bit mode 7) (mode_bit mode 6).
Definition group_perm (mode : Z) : Perm :=
  mkPerm (mode_bit mode 5) (mode_bit mode 4) (mode_bit mode 3).
Definition other_perm (mode : Z) : Perm :=
  mkPerm (mode_bit mode 2) (mode_bit mode 1) (mode_bit mode 0).
Definition sticky (mode : Z) : bool := mode_bit mode 9.

(** The value of a numeral read in base eight, digits given most
    significant first. *)
Definition octal (digits : list Z) : Z :=
  fold_left (fun acc d => 8 * acc + d)%Z digits 0%Z.

End Driver.

(** ** Further notions the properties below are stated with *)

Module TextSpec.

(** [c in s] for a character *)
Fixpoint has_char (c : ascii) (s : string) : bool :=
  match s with
  | EmptyString => false
  | String x s' => Ascii.eqb x c || has_char c s'
  end.

(** [old in s] *)
Fixpoint contains (old s : string) : bool :=
  String.prefix old s
  || match s with
     | EmptyString => false
     | String _ s' => contains old s'
     end.

End TextSpec.

(** ** [pytest_collection_modifyitems] *)

Module Collection.

(** A collected item, with the two attributes the hook reads. *)
Record Item : Type := mkItem {
  item_nodeid : string;
  item_fspath : string
}.

Section SortByKey.

Variable A : Type.
Variable key : A -> Z.

(** [list.sort(key=...)] sorts ascending by key and is stable; on a list
    every stable sort gives the same result, here by insertion: an element
    goes before the first one whose key is not smaller. *)
Fixpoint insert_by (x : A) (l : list A) : list A :=
  match l with
  | [] => [x]
  | y :: l' =>
      if (key x <=? key y)%Z then x :: y :: l' else y :: insert_by x l'
  end.

Definition sort_by (l : list A) : list A := fold_right insert_by [] l.

End SortByKey.

Section Hook.

(** [TestOrder.lineno]: the line a test is defined on.  [sort.py] is not
    among the sources; the line number is whatever the adapter answers. *)
Variable lineno : string -> string -> Z.

Definition _sort_by_lineno (item : Item) : Z :=
  let test_id := Data.Hierarchy (item_nodeid item) in
  let source := item_fspath item in
  lineno test_id source.

(** [items.sort(key=_sort_by_lineno)]: the items as the hook leaves them *)
Definition pytest_collection_modifyitems (items : list Item) : list Item :=
  sort_by Item _sort_by_lineno items.

End Hook.

End Collection.

(** ** The names of the records, in the order of their creation *)

Module Names.

(** a name joins the known ones at the end, unless it is known *)
Definition add_name (known : list string) (n : string) : list string :=
  if existsb (String.eqb n) known then known else (known ++ [n])%list.

(** the names of a sequence, each once, in the order of first appearance *)
Definition first_seen (names : list string) : list string :=
  fold_left add_name names [].

(** every record is filed under its own name *)
Definition filed_by_name (d : Dict.t Data.Test) : Prop :=
  Forall (fun kv => Data.name (snd kv) = fst kv) d.

End Names.

(** ** Shapes of a config *)

Module DriverSpec.

(** the config is a JSON object *)
Definition is_object (j : Driver.JSON) : bool :=
  match j with
  | Driver.JObj _ => true
  | _ => false
  end.

End DriverSpec.

(** ** Sample inputs *)

Module Samples.
Import Data Engine Reporter.

Definition join_slash (a b : string) : string := a ++ "/" ++ b.

(** a source lookup that always faults, and one that always finds *)
Definition lookup_faults (test_id source : string) : exn + string :=
  inl (KeyError test_id).
Definition lookup_finds (test_id source : string) : exn + string :=
  inr "def test_a(self): pass".

Definition work : string := "/work/proj".

Definition configured : ResultsReporter :=
  pytest_configure ResultsReporter_new (mkConfig work).

Definition crash_in_test : ReprFileLocation :=
  mkCrash "/work/proj/sub/test_x.py" 3 "AssertionError".

Definition trace_text : string :=
  "E   assert 1 == 2" ++ Text.nl ++ "/work/proj/sub/test_x.py:3: AssertionError".

Definition setup_failed : Report :=
  mkReport "sub/test_x.py::T::test_a" setup failed ""
    (Some (ExceptionRepr (mkLongRepr trace_text (Some crash_in_test))))
    "sub/test_x.py".

Definition call_failed_bare : Report :=
  mkReport "sub/test_x.py::T::test_a" call failed "" None "sub/test_x.py".

Definition teardown_failed_late : Report :=
  mkReport "sub/test_x.py::T::test_a" teardown failed "late output" None
    "sub/test_x.py".

Definition failed_record : Test :=
  mkTest "T.test_a" FAIL (Some "assert 1 == 2") None None.

Definition with_failed_record : ResultsReporter :=
  mkReporter Results_new [("T.test_a", failed_record)] None
    (Some (mkConfig work)).

(** a [json.loads] for one text: an object with an empty test-file list *)
Definition loads_empty_list (text : string) : exn + Driver.JSON :=
  inr (Driver.JObj [("files", Driver.JObj [("test", Driver.JArr [])])]).

End Samples.

Module MoreSamples.
Import Data Engine Reporter Samples.

Definition passed_setup : Report :=
  mkReport "sub/test_x.py::T::test_a" setup passed "" None "sub/test_x.py".

Definition skipped_setup : Report :=
  mkReport "sub/test_x.py::T::test_a" setup skipped "printed" None
    "sub/test_x.py".

Definition module_failed : Report :=
  mkReport "sub/test_x.py" setup failed "" None "sub/test_x.py".

Definition crash_in_string : ReprFileLocation := mkCrash "<string>" 1 "boom".

Definition call_failed_in_string : Report :=
  mkReport "sub/test_x.py::T::test_a" call failed "printed"
    (Some (ExceptionRepr (mkLongRepr "E   boom" (Some crash_in_string))))
    "sub/test_x.py".

Definition setup_failed_in_string : Report :=
  mkReport "sub/test_x.py::T::test_a" setup failed ""
    (Some (ExceptionRepr (mkLongRepr "E   boom" (Some crash_in_string))))
    "sub/test_x.py".

(** the setup report of a test that asks for a fixture nobody defines *)
Definition setup_failed_no_fixture : Report :=
  mkReport "sub/test_x.py::T::test_a" setup failed ""
    (Some (OpaqueRepr "FixtureLookupErrorRepr")) "sub/test_x.py".

Definition crash_elsewhere : ReprFileLocation :=
  mkCrash "/usr/lib/python3/site.py" 10 "ImportError".

Definition plain_trace : string := "ImportError in /usr/lib/python3/site.py".

(** a [json.loads] that finds a list of two test files, and one that
    cannot parse *)
Definition loads_two_files (text : string) : exn + Driver.JSON :=
  inr (Driver.JObj
         [("files", Driver.JObj
             [("test", Driver.JArr [Driver.JStr "a_test.py";
                                    Driver.JStr "b_test.py"])])]).
Definition loads_fails (text : string) : exn + Driver.JSON :=
  inl JSONDecodeError.

(** an engine that reports nothing, and a serializer *)
Definition engine_idle (argv : list string) (r : ResultsReporter)
  : ResultsReporter := r.
Definition to_json (r : Results) : string := "{}".

End MoreSamples.

(** * Facts *)

(** ** Text *)

Module TextFacts.
Import Text.

Lemma append_assoc : forall a b c : string, (a ++ b) ++ c = a ++ (b ++ c).
Proof. induction a as [|x a IH]; intros; simpl; [reflexivity | now rewrite IH]. Qed.

Lemma append_nil_r : forall a : string, a ++ "" = a.
Proof. induction a as [|x a IH]; simpl; [reflexivity | now rewrite IH]. Qed.

Lemma length_append : forall a b : string,
  String.length (a ++ b) = String.length a + String.length b.
Proof. induction a as [|x a IH]; intros; simpl; [reflexivity | now rewrite IH]. Qed.

Lemma drop_app : forall a b : string, drop (String.length a) (a ++ b) = b.
Proof. induction a as [|x a IH]; intros; simpl; [now destruct b | apply IH]. Qed.

Lemma drop_length_le : forall k s, String.length (drop k s) <= String.length s.
Proof.
  induction k as [|k IH]; intros s; simpl; [lia|].
  destruct s as [|c s]; simpl; [lia|]. specialize (IH s). lia.
Qed.

Lemma prefix_app : forall p r : string, String.prefix p (p ++ r) = true.
Proof.
  induction p as [|x p IH]; intros r; simpl; [now destruct r|].
  destruct (ascii_dec x x); [apply IH | congruence].
Qed.

Lemma prefix_split : forall p s : string,
  String.prefix p s = true -> s = p ++ drop (String.length p) s.
Proof.
  induction p as [|x p IH]; intros s H; simpl; [now destruct s|].
  destruct s as [|c s]; simpl in H; [discriminate|].
  destruct (ascii_dec x c); [|discriminate]. subst. f_equal. now apply IH.
Qed.

Lemma prefix_cons : forall x p c s,
  String.prefix (String x p) (String c s) =
  Ascii.eqb x c && String.prefix p s.
Proof.
  intros. simpl. destruct (ascii_dec x c) as [->|Hn].
  - now rewrite Ascii.eqb_refl.
  - apply Ascii.eqb_neq in Hn. now rewrite Hn.
Qed.

(** a start of [a ++ x] no longer than [a] is a start of [a] *)
Lemma prefix_app_short : forall p a x : string,
  String.prefix p (a ++ x) = true -> String.length p <= String.length a ->
  String.prefix p a = true.
Proof.
  induction p as [|c p IH]; intros a x H Hl; [now destruct a|].
  destruct a as [|d a]; simpl in Hl; [lia|].
  simpl in H |- *. destruct (ascii_dec c d); [|discriminate].
  apply (IH a x H). lia.
Qed.

(** a start of [a ++ x] at least as long as [a] is [a] and a start of [x] *)
Lemma prefix_app_long : forall a p x : string,
  String.prefix p (a ++ x) = true -> String.length a <= String.length p ->
  p = a ++ drop (String.length a) p /\
  String.prefix (drop (String.length a) p) x = true.
Proof.
  induction a as [|d a IH]; intros p x H Hl; simpl.
  - split; [now destruct p | now destruct p].
  - destruct p as [|c p]; simpl in Hl; [lia|].
    simpl in H. destruct (ascii_dec c d); [|discriminate]. subst.
    destruct (IH p x H ltac:(lia)) as [E P]. split; [now f_equal | exact P].
Qed.

Lemma replace_go_skip : forall old new s k,
  replace_go old new k s = replace_go old new 0 (drop k s).
Proof.
  induction s as [|c s IH]; intros k.
  - now destruct k.
  - destruct k as [|k]; [reflexivity|]. simpl. apply IH.
Qed.

(** the start of a text is an occurrence: it is replaced, and the scan goes
    on after it *)
Lemma replace_app_prefix : forall o old new x,
  replace (String o old) new (String o old ++ x) =
  new ++ replace (String o old) new x.
Proof.
  intros. unfold replace.
  change (String o old ++ x) with (String o (old ++ x)).
  cbn [replace_go].
  change (String o (old ++ x)) with (String o old ++ x).
  rewrite prefix_app. f_equal.
  replace (String.length (String o old) - 1) with (String.length old)
    by (simpl; lia).
  rewrite replace_go_skip. now rewrite drop_app.
Qed.

Lemma replace_no_prefix : forall o old new c s,
  String.prefix (String o old) (String c s) = false ->
  replace (String o old) new (String c s) =
  String c (replace (String o old) new s).
Proof. intros. unfold replace. cbn [replace_go]. now rewrite H. Qed.

Lemma occurs_cons : forall old c s,
  occurs old (String c s) ->
  String.prefix old (String c s) = true \/ occurs old s.
Proof.
  intros old c s (a & b & E). destruct a as [|x a].
  - left. simpl in E. rewrite E. apply prefix_app.
  - right. simpl in E. injection E as _ E. now exists a, b.
Qed.

Lemma not_occurs_empty : forall o old, ~ occurs (String o old) "".
Proof. intros o old (a & b & E). destruct a; discriminate. Qed.

Lemma Replaced_cons : forall old new c s r,
  String.prefix old (String c s) = false ->
  Replaced old new s r -> Replaced old new (String c s) (String c r).
Proof.
  intros old new c s r Hp HR. destruct HR as [s Hn | a b r He HR].
  - apply Replaced_none. intros Ho.
    destruct (occurs_cons _ _ _ Ho); [congruence | contradiction].
  - change (String c (a ++ old ++ b)) with (String c a ++ old ++ b).
    change (String c (a ++ new ++ r)) with (String c a ++ new ++ r).
    apply Replaced_first; [|exact HR].
    intros a1 a2 E Hne. destruct a1 as [|x a1].
    + simpl in E. subst a2. exact Hp.
    + simpl in E. injection E as _ E. now apply (He a1 a2).
Qed.

(** [replace] replaces every occurrence, leftmost first. *)
Lemma replace_Replaced : forall o old new n s,
  String.length s <= n ->
  Replaced (String o old) new s (replace (String o old) new s).
Proof.
  intros o old new. induction n as [|n IH]; intros s Hn.
  - destruct s; [|simpl in Hn; lia].
    apply Replaced_none, not_occurs_empty.
  - destruct s as [|c s]; [apply Replaced_none, not_occurs_empty|].
    destruct (String.prefix (String o old) (String c s)) eqn:Hp.
    + pose proof (prefix_split _ _ Hp) as E.
      assert (Hb : String.length (drop (String.length (String o old))
                     (String c s)) <= n).
      { pose proof (drop_length_le (String.length old) s).
        simpl in Hn |- *. lia. }
      set (b := drop _ _) in E, Hb. rewrite E. rewrite replace_app_prefix.
      apply (Replaced_first (String o old) new "" b
               (replace (String o old) new b)).
      * intros a1 a2 E' Hne.
        destruct a1; [simpl in E'; congruence | discriminate].
      * now apply IH.
    + rewrite replace_no_prefix by exact Hp.
      apply Replaced_cons; [exact Hp|]. apply IH. simpl in Hn. lia.
Qed.

Lemma border_free_spec : forall old k,
  border_free old = true -> 0 < k < String.length old ->
  String.prefix (drop k old) old = false.
Proof.
  intros old k H Hk. unfold border_free in H.
  rewrite forallb_forall in H. specialize (H k).
  apply negb_true_iff, H, in_seq. lia.
Qed.

(** When occurrences of [old] cannot overlap, the occurrence in
    [a ++ old ++ b] is replaced whatever stands around it. *)
Lemma replace_app_border_free : forall o old new b,
  border_free (String o old) = true ->
  forall n a, String.length a <= n ->
  replace (String o old) new (a ++ String o old ++ b) =
  replace (String o old) new a ++ new ++ replace (String o old) new b.
Proof.
  intros o old new b Hb. induction n as [|n IH]; intros a Hn.
  - destruct a; [|simpl in Hn; lia].
    change ("" ++ String o old ++ b) with (String o old ++ b).
    now rewrite replace_app_prefix.
  - destruct a as [|c a].
    { change ("" ++ String o old ++ b) with (String o old ++ b).
      now rewrite replace_app_prefix. }
    destruct (String.prefix (String o old) (String c a)) eqn:Hp.
    + rewrite (prefix_split _ _ Hp). rewrite append_assoc.
      rewrite !replace_app_prefix. rewrite append_assoc. f_equal.
      apply IH. pose proof (drop_length_le (String.length old) a).
      simpl in Hn |- *. lia.
    + assert (Hq : String.prefix (String o old)
                     (String c a ++ String o old ++ b) = false).
      { destruct (String.prefix (String o old)
                    (String c a ++ String o old ++ b)) eqn:Hq; [|reflexivity].
        destruct (le_lt_dec (String.length (String o old))
                            (String.length (String c a))) as [Hl|Hl].
        - rewrite (prefix_app_short _ _ _ Hq Hl) in Hp. discriminate.
        - destruct (prefix_app_long _ _ _ Hq ltac:(lia)) as [E P].
          assert (Hk : 0 < String.length (String c a)
                       < String.length (String o old)) by (simpl in *; lia).
          pose proof (border_free_spec _ _ Hb Hk) as Hbf.
          assert (Hlen : String.length (drop (String.length (String c a))
                           (String o old)) <= String.length (String o old))
            by apply drop_length_le.
          rewrite (prefix_app_short _ _ _ P Hlen) in Hbf. discriminate. }
      change (String c a ++ String o old ++ b)
        with (String c (a ++ String o old ++ b)) in Hq |- *.
      rewrite replace_no_prefix by exact Hq.
      rewrite replace_no_prefix by exact Hp.
      cbn [append]. f_equal. apply IH. simpl in Hn. lia.
Qed.

(** replacing one character by another is a character-wise map *)
Lemma replace_char : forall x y s,
  replace (String x "") (String y "") s =
  map_chars (fun c => if Ascii.eqb c x then y else c) s.
Proof.
  intros x y. induction s as [|c s IH]; [reflexivity|].
  unfold replace in *. cbn [replace_go map_chars String.length Nat.sub].
  rewrite prefix_cons. rewrite (Ascii.eqb_sym c x). rewrite IH.
  assert (Hs : String.prefix "" s = true) by now destruct s.
  rewrite Hs. now destruct (Ascii.eqb x c).
Qed.

End TextFacts.

(** ** [commonpath] *)

Module PosixPathFacts.
Import PosixPath.

Lemma ltb_asym : forall c d, String.ltb c d = true -> String.ltb d c = false.
Proof.
  intros c d. unfold String.ltb. rewrite (String.compare_antisym d c).
  now destruct (String.compare c d).
Qed.

Lemma ltb_total : forall c d,
  String.ltb c d = false -> String.ltb d c = false -> c = d.
Proof.
  intros c d. unfold String.ltb. rewrite (String.compare_antisym d c).
  destruct (String.compare c d) eqn:E; simpl; try discriminate.
  intros _ _. now apply String.compare_eq_iff.
Qed.

Lemma list_lt_asym : forall x y, list_lt x y = true -> list_lt y x = false.
Proof.
  induction x as [|c x IH]; intros y H.
  - now destruct y.
  - destruct y as [|d y]; [discriminate|]. simpl in H |- *.
    rewrite (String.eqb_sym d c). destruct (c =? d).
    + now apply IH.
    + now apply ltb_asym.
Qed.

Lemma list_lt_total : forall x y,
  list_lt x y = false -> list_lt y x = false -> x = y.
Proof.
  induction x as [|c x IH]; intros y H1 H2.
  - destruct y; [reflexivity | discriminate].
  - destruct y as [|d y]; [discriminate|]. simpl in H1, H2.
    rewrite (String.eqb_sym d c) in H2. destruct (c =? d) eqn:E.
    + apply String.eqb_eq in E. subst. f_equal. now apply IH.
    + apply String.eqb_neq in E. elim E. now apply ltb_total.
Qed.

Lemma lcp_comm : forall x y, lcp x y = lcp y x.
Proof.
  induction x as [|c x IH]; intros y; [now destruct y|].
  destruct y as [|d y]; [reflexivity|]. simpl.
  rewrite (String.eqb_sym d c). destruct (c =? d) eqn:E; [|reflexivity].
  apply String.eqb_eq in E. subst. now rewrite IH.
Qed.

Lemma lcp_diag : forall x, lcp x x = x.
Proof.
  induction x as [|c x IH]; [reflexivity|].
  simpl. now rewrite String.eqb_refl, IH.
Qed.

(** [s2[i]] stays in range when [s1] is the smaller list *)
Lemma common_loop_lt : forall s1 s2,
  list_lt s1 s2 = true -> common_loop s1 s2 = inr (lcp s1 s2).
Proof.
  induction s1 as [|c s1 IH]; intros s2 H; [now destruct s2|].
  destruct s2 as [|d s2]; [discriminate|]. simpl in H |- *.
  destruct (c =? d); [|reflexivity]. now rewrite (IH s2 H).
Qed.

Lemma common_loop_diag : forall s, common_loop s s = inr s.
Proof.
  induction s as [|c s IH]; [reflexivity|].
  simpl. now rewrite String.eqb_refl, IH.
Qed.

Lemma common_loop_min_max : forall a b,
  common_loop (min2 a b) (max2 a b) = inr (lcp a b).
Proof.
  intros a b. unfold min2, max2.
  destruct (list_lt b a) eqn:Hba.
  - rewrite (list_lt_asym _ _ Hba). rewrite (lcp_comm a b).
    now apply common_loop_lt.
  - destruct (list_lt a b) eqn:Hab.
    + now apply common_loop_lt.
    + rewrite (list_lt_total _ _ Hab Hba). rewrite lcp_diag.
      apply common_loop_diag.
Qed.

(** [commonpath] raises exactly when one path is absolute and the other
    is not; otherwise it joins the longest common prefix of the
    components. *)
Lemma commonpath_eq : forall p1 p2,
  commonpath p1 p2 =
  if Bool.eqb (isabs p1) (isabs p2)
  then inr ((if isabs p1 then "/" else "")
            ++ Text.join "/" (lcp (components p1) (components p2)))
  else inl (ValueError "Can't mix absolute and relative paths").
Proof.
  intros. unfold commonpath. now rewrite common_loop_min_max.
Qed.

Lemma lcp_prefix_l : forall x y, Prefix (lcp x y) x.
Proof.
  induction x as [|c x IH]; intros y; [now exists []|].
  destruct y as [|d y]; [now exists (c :: x)|]. simpl.
  destruct (c =? d); [|now exists (c :: x)].
  destruct (IH y) as [r E]. exists r. simpl. now rewrite <- E.
Qed.

Lemma lcp_prefix_r : forall x y, Prefix (lcp x y) y.
Proof. intros. rewrite lcp_comm. apply lcp_prefix_l. Qed.

Lemma lcp_longest : forall z x y, Prefix z x -> Prefix z y -> Prefix z (lcp x y).
Proof.
  induction z as [|c z IH]; intros x y [rx Ex] [ry Ey]; [now eexists|].
  subst. simpl. rewrite String.eqb_refl.
  destruct (IH (z ++ rx)%list (z ++ ry)%list) as [r E]; [now eexists..|].
  exists r. simpl. now rewrite <- E.
Qed.

End PosixPathFacts.

(** ** Test records in the [dict] *)

Module DictFacts.

Lemma get_set_same : forall (V : Type) k (v : V) d,
  Dict.get k (Dict.set k v d) = Some v.
Proof.
  induction d as [|[k' v'] d IH]; simpl.
  - now rewrite String.eqb_refl.
  - destruct (k' =? k) eqn:E; simpl; rewrite E; [reflexivity | exact IH].
Qed.

Lemma get_set_other : forall (V : Type) k k' (v : V) d,
  k' <> k -> Dict.get k (Dict.set k' v d) = Dict.get k d.
Proof.
  intros V k k' v d Hne. induction d as [|[k0 v0] d IH]; simpl.
  - apply String.eqb_neq in Hne. now rewrite Hne.
  - destruct (k0 =? k') eqn:E; simpl.
    + apply String.eqb_eq in E. subst k0.
      apply String.eqb_neq in Hne. now rewrite Hne.
    + now rewrite IH.
Qed.

End DictFacts.

(** ** The reporter *)

Module ReporterFacts.
Import Data Engine Reporter.

Lemma set_tests_id : forall self, set_tests self (tests self) = self.
Proof. now destruct self. Qed.

Lemma get_tests_with : forall self k,
  Dict.get k (tests_with self k) = Some (state_of self k).
Proof.
  intros self k. unfold tests_with, state_of, record, Dict.mem.
  destruct (Dict.get k (tests self)) eqn:E; simpl.
  - exact E.
  - apply DictFacts.get_set_same.
Qed.

Lemma get_tests_with_other : forall self k n,
  k <> n -> Dict.get n (tests_with self k) = Dict.get n (tests self).
Proof.
  intros. unfold tests_with. destruct (negb _); [|reflexivity].
  now apply DictFacts.get_set_other.
Qed.

Lemma tests_with_known : forall self k t,
  record self k = Some t -> tests_with self k = tests self.
Proof.
  intros self k t H. unfold tests_with, Dict.mem.
  unfold record in H. now rewrite H.
Qed.

Section HookFacts.

Variable cwd : string.
Variable path_join : string -> string -> string.
Variable resolve_source : string -> string -> exn + string.

Local Abbreviation logreport :=
  (pytest_runtest_logreport cwd path_join resolve_source).
Local Abbreviation feed := (feed_reports cwd path_join resolve_source).

(** The hook, with the lookup of the record done. *)
Lemma logreport_eq : forall self report,
  logreport self report =
  let k := test_name report in
  let tests1 := tests_with self k in
  let state := state_of self k in
  let store := fun st => set_tests self (Dict.set k st tests1) in
  if Outcome_eqb (outcome report) passed
     && negb (Phase_eqb (when report) call)
  then (set_tests self tests1, None)
  else if negb (is_passing state)
  then (set_tests self tests1, None)
  else
    let state1 :=
      if negb (capstdout report =? "")
      then set_output state (Some (capstdout report))
      else state in
    match handle_failure cwd state1 report with
    | inl e => (store state1, Some e)
    | inr state2 =>
        match attach_source path_join resolve_source self state2 report with
        | inl e => (store state2, Some e)
        | inr state3 => (store state3, None)
        end
    end.
Proof.
  intros. unfold pytest_runtest_logreport.
  fold (tests_with self (test_name report)).
  now rewrite get_tests_with.
Qed.

(** A report leaves the records of other names alone. *)
Lemma logreport_other : forall self report n,
  test_name report <> n ->
  record (fst (logreport self report)) n = record self n.
Proof.
  intros self report n Hne. rewrite logreport_eq. cbv zeta.
  assert (H1 : Dict.get n (tests_with self (test_name report)) = record self n)
    by now apply get_tests_with_other.
  assert (H2 : forall st,
    Dict.get n (Dict.set (test_name report) st
                  (tests_with self (test_name report))) = record self n).
  { intros st. rewrite DictFacts.get_set_other by exact Hne. exact H1. }
  unfold record at 1.
  destruct (_ && _); [exact H1|].
  destruct (negb (is_passing _)); [exact H1|].
  destruct (handle_failure _ _ _); [apply H2|].
  destruct (attach_source _ _ _ _ _); apply H2.
Qed.

(** A report for a record that is no longer passing changes nothing. *)
Lemma logreport_frozen : forall self report t,
  record self (test_name report) = Some t -> is_passing t = false ->
  logreport self report = (self, None).
Proof.
  intros self report t Hr Hp. rewrite logreport_eq. cbv zeta.
  rewrite (tests_with_known _ _ _ Hr), set_tests_id.
  unfold state_of. rewrite Hr, Hp. simpl.
  now destruct (_ && _).
Qed.

Lemma feed_frozen : forall reports self n t,
  record self n = Some t -> is_passing t = false ->
  record (feed self reports) n = Some t.
Proof.
  induction reports as [|r reports IH]; intros self n t Hr Hp; [exact Hr|].
  unfold feed_reports. simpl. apply IH; [|exact Hp].
  destruct (string_dec (test_name r) n) as [E|E].
  - subst n. now rewrite (logreport_frozen _ _ _ Hr Hp).
  - now rewrite logreport_other.
Qed.

Lemma make_message_eq : forall trace crash,
  _make_message cwd trace crash =
  match crash with
  | None => inr (Text.dedent (Text.re_sub_marker trace))
  | Some c =>
      if Bool.eqb (PosixPath.isabs cwd) (PosixPath.isabs (path c))
      then inr (Text.replace
                  ((if PosixPath.isabs cwd then "/" else "")
                   ++ Text.join "/" (PosixPath.lcp (PosixPath.components cwd)
                                       (PosixPath.components (path c))))
                  "." (Text.dedent (Text.re_sub_marker trace)))
      else inl (ValueError "Can't mix absolute and relative paths")
  end.
Proof.
  intros trace [c|]; [|reflexivity]. unfold _make_message.
  rewrite PosixPathFacts.commonpath_eq. now destruct (Bool.eqb _ _).
Qed.

(** Formatting the failure detail raises what the report shows to stand in
    its way, and returns otherwise. *)
Lemma failure_message_detail : forall report,
  match detail_error cwd report with
  | Some e => failure_message cwd report = inl e
  | None => exists msg, failure_message cwd report = inr msg
  end.
Proof.
  intros report. unfold detail_error, failure_message.
  destruct (longrepr report) as [[lr|text|ty]|]; [| | reflexivity |now eexists].
  - rewrite make_message_eq. destruct (reprcrash lr) as [c|]; [|now eexists].
    destruct (Bool.eqb _ _); [now eexists | reflexivity].
  - destruct text; [now eexists | reflexivity].
Qed.

Lemma failure_message_returns : forall report,
  detail_error cwd report = None ->
  exists msg, failure_message cwd report = inr msg.
Proof.
  intros report H. pose proof (failure_message_detail report) as Hd.
  now rewrite H in Hd.
Qed.

(** A failed report on a record that is still passing: the record gets the
    status of the phase and the message of the failure. *)
Lemma logreport_failure : forall self report msg,
  fresh_or_passing self (test_name report) = true ->
  outcome report = failed ->
  failure_message cwd report = inr msg ->
  exists t,
    record (fst (logreport self report)) (test_name report) = Some t /\
    status t = (if Phase_eqb (when report) call then FAIL else ERROR) /\
    message t = msg.
Proof.
  intros self report msg Hp Ho Hm. rewrite logreport_eq. cbv zeta.
  unfold fresh_or_passing in Hp. rewrite Ho, Hp. cbn [Outcome_eqb andb negb].
  unfold handle_failure. rewrite Ho, Hm. cbn [Outcome_eqb].
  set (state1 := if negb (capstdout report =? "") then _ else _).
  unfold attach_source.
  destruct (Phase_eqb (when report) call); cbn [negb];
    destruct (config self); cbn [fst]; unfold record; cbn [tests set_tests];
    rewrite DictFacts.get_set_same; eexists; split; try reflexivity;
    now split.
Qed.

Lemma handle_failure_returns : forall state report,
  detail_error cwd report = None ->
  exists state', handle_failure cwd state report = inr state'.
Proof.
  intros state report H. unfold handle_failure.
  destruct (Outcome_eqb _ _); [|now eexists].
  destruct (failure_message_returns report H) as [msg ->].
  destruct (negb _); now eexists.
Qed.

(** C1, as amended.  Once the record of a name is failed or errored, a
    later report for that name changes nothing: the hook returns the
    reporter as it was, raising nothing, so status, message, captured output
    and source text all stay, whatever the report carries, and they stay
    through every further report. *)
Theorem failed_record_is_frozen : forall self report t,
  record self (test_name report) = Some t -> is_passing t = false ->
  logreport self report = (self, None) /\
  forall later,
    record (feed self (report :: later)) (test_name report) = Some t.
Proof.
  intros self report t Hr Hp. split.
  - now apply (logreport_frozen self report t).
  - intros later. now apply feed_frozen.
Qed.

(** C3, as amended.  Handling a phase report raises in these cases and in
    no other: a failed report that gets past the two guards and whose
    failure detail cannot be formatted (a [longrepr] that is no exception
    representation, or a crash path that cannot be compared with the working
    directory), and a report that gets past the guards on a reporter
    [pytest_configure] has not reached.  Creating the record, taking the
    output and setting status and message raise nothing, and neither does
    attaching the source text, whatever the lookup of the Ordering Adapter
    did, the adapter swallowing its own faults. *)
Theorem logreport_raises_only_for_detail_or_config : forall self report,
  snd (pytest_runtest_logreport cwd path_join resolve_source self report) =
  if returns_early self report then None
  else if Outcome_eqb (outcome report) failed then
    match detail_error cwd report with
    | Some e => Some e
    | None => unconfigured_error self
    end
  else unconfigured_error self.
Proof.
  intros self report. rewrite logreport_eq. cbv zeta.
  unfold returns_early, fresh_or_passing, unconfigured_error.
  destruct (_ && _); [reflexivity|]. cbn [orb].
  destruct (negb (is_passing _)); [reflexivity|].
  unfold handle_failure, attach_source.
  destruct (Outcome_eqb (outcome report) failed).
  - pose proof (failure_message_detail report) as Hd.
    destruct (detail_error cwd report) as [e|].
    + now rewrite Hd.
    + destruct Hd as [msg ->].
      destruct (negb _); now destruct (config self).
  - now destruct (config self).
Qed.

(** C6, as amended.  A failed setup report that finds its record fresh or
    still passing, and whose failure detail can be formatted, makes the
    record errored, and it stays errored through every later report; a
    failed call report on such a record makes it failed. *)
Theorem setup_failure_errors_call_failure_fails : forall self report,
  outcome report = failed ->
  fresh_or_passing self (test_name report) = true ->
  detail_error cwd report = None ->
  (when report = setup -> forall later, exists t,
     record (feed (fst (logreport self report)) later) (test_name report)
       = Some t /\ status t = ERROR) /\
  (when report = call -> exists t,
     record (fst (logreport self report)) (test_name report) = Some t /\
     status t = FAIL).
Proof.
  intros self report Ho Hp Hk.
  destruct (failure_message_returns report Hk) as [msg Hm].
  destruct (logreport_failure self report msg Hp Ho Hm) as (t & Hr & Hs & _).
  split; intros Hw; rewrite Hw in Hs; cbn in Hs.
  - intros later. exists t. split; [|exact Hs].
    apply feed_frozen; [exact Hr|]. unfold is_passing. now rewrite Hs.
  - now exists t.
Qed.

(** C10.  A failed report without a traceback representation, on a record
    that is fresh or still passing, sets the status to failed in the call
    phase and to errored in setup and teardown, and the record has no
    message. *)
Theorem failure_without_traceback_has_no_message : forall self report,
  outcome report = failed ->
  longrepr report = None ->
  fresh_or_passing self (test_name report) = true ->
  exists t,
    record (fst (logreport self report)) (test_name report) = Some t /\
    status t = (if Phase_eqb (when report) call then FAIL else ERROR) /\
    message t = None.
Proof.
  intros self report Ho Hl Hp.
  apply logreport_failure; try assumption.
  unfold failure_message. now rewrite Hl.
Qed.

(** C4, as amended.  Without a crash locator the formatter returns, with
    no relativization, the rendered traceback in which the marker at the
    start of a line is replaced by two blanks and the common leading blanks
    of the lines are then removed.  With a crash locator it returns when the
    crash path is absolute exactly when the working directory is, and raises
    ValueError when one is absolute and the other relative. *)
Theorem make_message_returns_unless_paths_mix : forall trace crash,
  _make_message cwd trace None
    = inr (Text.dedent (Text.re_sub_marker trace)) /\
  _make_message cwd trace (Some crash) =
    if Bool.eqb (PosixPath.isabs cwd) (PosixPath.isabs (path crash))
    then inr (Text.replace
                ((if PosixPath.isabs cwd then "/" else "")
                 ++ Text.join "/"
                      (PosixPath.lcp (PosixPath.components cwd)
                         (PosixPath.components (path crash))))
                "." (Text.dedent (Text.re_sub_marker trace)))
    else inl (ValueError "Can't mix absolute and relative paths").
Proof.
  intros trace crash. split.
  - reflexivity.
  - apply (make_message_eq trace (Some crash)).
Qed.

End HookFacts.

(** The lines of a rendered text that hold the path of the example are
    relativized: each occurrence of [/work/proj/sub/test_x.py] becomes
    [./sub/test_x.py], whatever stands around it. *)
Lemma relativize_example : forall trace a b line msg,
  Text.dedent (Text.re_sub_marker trace)
    = a ++ "/work/proj/sub/test_x.py" ++ b ->
  _make_message "/work/proj" trace
    (Some (mkCrash "/work/proj/sub/test_x.py" line msg))
  = inr (Text.replace "/work/proj" "." a ++ "./sub/test_x.py"
         ++ Text.replace "/work/proj" "." b).
Proof.
  intros trace a b line msg E.
  rewrite make_message_eq. cbn [path]. rewrite E.
  change (a ++ "/work/proj/sub/test_x.py" ++ b)
    with (a ++ "/work/proj" ++ ("/sub/test_x.py" ++ b)).
  replace (Bool.eqb (PosixPath.isabs "/work/proj")
             (PosixPath.isabs "/work/proj/sub/test_x.py")) with true
    by reflexivity.
  replace ((if PosixPath.isabs "/work/proj" then "/" else "") ++
           Text.join "/" (PosixPath.lcp (PosixPath.components "/work/proj")
             (PosixPath.components "/work/proj/sub/test_x.py")))
    with "/work/proj" by reflexivity.
  rewrite (TextFacts.replace_app_border_free "/"%char "work/proj" "."
             ("/sub/test_x.py" ++ b) eq_refl (String.length a) a (le_n _)).
  assert (Ht : Text.replace "/work/proj" "." ("/sub/test_x.py" ++ b)
               = "/sub/test_x.py" ++ Text.replace "/work/proj" "." b)
    by reflexivity.
  now rewrite Ht.
Qed.

(** C8, as amended.  With a crash path that is absolute exactly when the
    working directory is, the formatter takes the longest list of leading
    path components the two share, joins it into a path ([commonpath]
    returns it), and returns the rendered text with every occurrence of that
    path, leftmost first, replaced by a dot; an empty common path, which two
    relative paths can have, occurs before every character and at the end.
    With the working directory [/work/proj] and the crash path
    [/work/proj/sub/test_x.py] every occurrence of the crash path in the
    rendered text comes out as [./sub/test_x.py]. *)
Theorem make_message_relativizes : forall cwd trace crash,
  Bool.eqb (PosixPath.isabs cwd) (PosixPath.isabs (path crash)) = true ->
  let parts := PosixPath.lcp (PosixPath.components cwd)
                 (PosixPath.components (path crash)) in
  let common :=
    (if PosixPath.isabs cwd then "/" else "") ++ Text.join "/" parts in
  let rendered := Text.dedent (Text.re_sub_marker trace) in
  PosixPath.Prefix parts (PosixPath.components cwd) /\
  PosixPath.Prefix parts (PosixPath.components (path crash)) /\
  (forall z, PosixPath.Prefix z (PosixPath.components cwd) ->
             PosixPath.Prefix z (PosixPath.components (path crash)) ->
             PosixPath.Prefix z parts) /\
  PosixPath.commonpath cwd (path crash) = inr common /\
  _make_message cwd trace (Some crash)
    = inr (Text.replace common "." rendered) /\
  match common with
  | EmptyString =>
      Text.replace common "." rendered = Text.intersperse "." rendered
  | String _ _ =>
      Text.Replaced common "." rendered (Text.replace common "." rendered)
  end /\
  (forall tr a b line msg,
     Text.dedent (Text.re_sub_marker tr)
       = a ++ "/work/proj/sub/test_x.py" ++ b ->
     _make_message "/work/proj" tr
       (Some (mkCrash "/work/proj/sub/test_x.py" line msg))
     = inr (Text.replace "/work/proj" "." a ++ "./sub/test_x.py"
            ++ Text.replace "/work/proj" "." b)).
Proof.
  intros cwd trace crash Hk parts common rendered.
  split; [apply PosixPathFacts.lcp_prefix_l|].
  split; [apply PosixPathFacts.lcp_prefix_r|].
  split; [intros z; apply PosixPathFacts.lcp_longest|].
  split; [rewrite PosixPathFacts.commonpath_eq; now rewrite Hk|].
  split; [rewrite make_message_eq; now rewrite Hk|].
  split; [|exact relativize_example].
  destruct common as [|o common']; [reflexivity|].
  apply (TextFacts.replace_Replaced o _ _ (String.length rendered)).
  apply le_n.
Qed.

End ReporterFacts.

(** ** The end of the session *)

Module SessionFacts.
Import Data Engine Reporter.

Lemma fold_add : forall ts r,
  fold_left Results_add ts r
  = mkResults (r_status r) (r_message r) (r_tests r ++ ts)%list.
Proof.
  induction ts as [|t ts IH]; intros r.
  - simpl. rewrite app_nil_r. now destruct r.
  - simpl. rewrite IH. simpl. now rewrite <- app_assoc.
Qed.

Lemma logreport_results : forall cwd pj rs self report,
  results (fst (pytest_runtest_logreport cwd pj rs self report))
  = results self.
Proof.
  intros. rewrite ReporterFacts.logreport_eq. cbv zeta.
  destruct (_ && _); [reflexivity|].
  destruct (negb (is_passing _)); [reflexivity|].
  destruct (handle_failure _ _ _); [reflexivity|].
  now destruct (attach_source _ _ _ _ _).
Qed.

Lemma feed_results : forall cwd pj rs reports self,
  results (feed_reports cwd pj rs self reports) = results self.
Proof.
  intros cwd pj rs. unfold feed_reports.
  induction reports as [|r reports IH]; intros self.
  - reflexivity.
  - simpl. rewrite IH. apply logreport_results.
Qed.


End SessionFacts.

(** ** The run driver *)

Module DriverFacts.
Import Driver.

Lemma absent_or_empty_no_files : forall joinpath indir config_data,
  test_list_absent_or_empty config_data = true ->
  config_test_files joinpath indir config_data = inr [].
Proof.
  intros joinpath indir config_data H.
  unfold test_list_absent_or_empty in H.
  unfold config_test_files, config_test_entry, Dict.get_default.
  destruct config_data as [| | | | |members]; try discriminate.
  destruct (Dict.get "files" members) as [[| | | | |files]|];
    try discriminate; [|reflexivity].
  destruct (Dict.get "test" files) as [[| | | |[|]|]|];
    try discriminate; reflexivity.
Qed.

(** C9.  A config file that is there, with a test-file list that is absent
    or empty, makes the driver resolve the same single file as no config
    file at all: the slug with every [-] turned into [_], followed by
    [_test.py], under the input directory. *)
Theorem empty_config_list_falls_back_to_default :
  forall joinpath json_loads slug indir text config_data,
  json_loads text = inr config_data ->
  test_list_absent_or_empty config_data = true ->
  resolve_test_files joinpath json_loads slug indir (Some text)
    = resolve_test_files joinpath json_loads slug indir None /\
  resolve_test_files joinpath json_loads slug indir None
    = inr [joinpath indir
             (Text.map_chars
                (fun c => if Ascii.eqb c "-"%char then "_"%char else c) slug
              ++ "_test.py")].
Proof.
  intros joinpath json_loads slug indir text config_data Hl He.
  unfold resolve_test_files. rewrite Hl.
  rewrite (absent_or_empty_no_files joinpath indir config_data He).
  split; [reflexivity|]. now rewrite TextFacts.replace_char.
Qed.

(** C2.  The driver ends a run by [chmod] of the results file with the
    number 664.  Read as the mode it is, that number has the sticky bit set
    and grants write to the owner, write and execute to the group and
    nothing to others; read-write for owner and group with read-only for
    others is the mode 436, written 664 in base eight. *)
Theorem results_mode_is_decimal_664 :
  (forall joinpath json_loads pytest_main as_json slug indir outdir args,
     exists text,
       run joinpath json_loads pytest_main as_json slug indir outdir args None
       = inr [WriteText (joinpath outdir "results.json") text;
              Chmod (joinpath outdir "results.json") 664]) /\
  owner_perm results_mode = mkPerm false true false /\
  group_perm results_mode = mkPerm false true true /\
  other_perm results_mode = mkPerm false false false /\
  sticky results_mode = true /\
  octal [6; 6; 4]%Z = 436%Z /\
  owner_perm 436 = mkPerm true true false /\
  group_perm 436 = mkPerm true true false /\
  other_perm 436 = mkPerm true false false /\
  sticky 436 = false.
Proof.
  split; [|repeat split].
  intros. unfold run, resolve_test_files. now eexists.
Qed.

End DriverFacts.

(** ** The argument sanitizer *)

Module SanitizerFacts.
Import Sanitizer.

Lemma fold_step_acc : forall args clean skip,
  fst (fold_left step args (clean, skip)) =
  (clean ++ fst (fold_left step args ([], skip)))%list.
Proof.
  induction args as [|a args IH]; intros clean skip; simpl.
  - now rewrite app_nil_r.
  - destruct skip; simpl.
    + apply IH.
    + destruct (a =? "--tb"); [apply IH|].
      destruct (Text.startswith a "--tb="); [apply IH|].
      rewrite IH. rewrite (IH ([] ++ [a])%list). now rewrite app_assoc.
Qed.

Lemma fold_step_strip : forall n args, length args <= n ->
  fst (fold_left step args ([], false)) = strip_tb args /\
  fst (fold_left step args ([], true)) = strip_tb (tl args).
Proof.
  induction n as [|n IH]; intros args Hn.
  - destruct args; [now split | simpl in Hn; lia].
  - destruct args as [|a args]; [now split|].
    simpl in Hn. assert (Hl : length args <= n) by lia.
    destruct (IH args Hl) as [IHf IHt]. split.
    + simpl. destruct (a =? "--tb").
      * rewrite IHt. now destruct args.
      * destruct (Text.startswith a "--tb="); [exact IHf|].
        rewrite fold_step_acc. simpl. now rewrite IHf.
    + simpl. exact IHf.
Qed.

Lemma sanitize_strip : forall args,
  _sanitize_args args = (strip_tb args ++ ["--tb=no"])%list.
Proof.
  intros args. unfold _sanitize_args.
  now rewrite (proj1 (fold_step_strip (length args) args (le_n _))).
Qed.

Lemma Subseq_refl : forall (A : Type) (l : list A), Subseq l l.
Proof. induction l; constructor; assumption. Qed.

Lemma strip_tb_props : forall n args, length args <= n ->
  Subseq (strip_tb args) args /\
  Forall (fun a => is_tb_flag a = false) (strip_tb args).
Proof.
  induction n as [|n IH]; intros args Hn.
  - destruct args; [split; constructor | simpl in Hn; lia].
  - destruct args as [|a args]; [split; constructor|].
    simpl in Hn. simpl.
    destruct (a =? "--tb") eqn:Ea.
    + destruct args as [|b args]; [split; repeat constructor|].
      simpl in Hn. destruct (IH args ltac:(lia)) as [Hs Hf].
      split; [now repeat apply Subseq_skip | exact Hf].
    + destruct (IH args ltac:(lia)) as [Hs Hf].
      destruct (Text.startswith a "--tb=") eqn:Ep.
      * split; [now apply Subseq_skip | exact Hf].
      * split; [now apply Subseq_keep|].
        constructor; [|exact Hf]. unfold is_tb_flag. now rewrite Ea, Ep.
Qed.

Lemma strip_tb_id : forall args,
  Forall (fun a => is_tb_flag a = false) args -> strip_tb args = args.
Proof.
  induction 1 as [|a args Ha _ IH]; [reflexivity|].
  unfold is_tb_flag in Ha. apply orb_false_iff in Ha as [Ea Ep].
  simpl. now rewrite Ea, Ep, IH.
Qed.

(** C5. For every argument list the sanitizer returns the arguments with
    the traceback-verbosity flags taken out (the [--tb value] pair and the
    [--tb=value] token), in their original order, followed by [--tb=no]:
    no flag in either form is left among them, they are a subsequence of the
    input, a list that holds no flag is kept whole, [--tb=no] is the last
    element, and the three examples of the specification evaluate as
    stated. *)
Theorem sanitize_args_removes_tb_and_appends : forall args,
  _sanitize_args args = (strip_tb args ++ ["--tb=no"])%list /\
  Forall (fun a => is_tb_flag a = false) (strip_tb args) /\
  Subseq (strip_tb args) args /\
  strip_tb (filter (fun a => negb (is_tb_flag a)) args)
    = filter (fun a => negb (is_tb_flag a)) args /\
  last (_sanitize_args args) "" = "--tb=no" /\
  _sanitize_args ["--tb=long"; "-v"] = ["-v"; "--tb=no"] /\
  _sanitize_args ["--tb"; "long"; "-x"] = ["-x"; "--tb=no"] /\
  _sanitize_args ["-q"] = ["-q"; "--tb=no"].
Proof.
  intros args.
  destruct (strip_tb_props (length args) args (le_n _)) as [Hs Hf].
  repeat split; try reflexivity; try assumption.
  - apply sanitize_strip.
  - apply strip_tb_id. apply Forall_forall. intros a Ha.
    apply filter_In in Ha as [_ Ha]. now apply negb_true_iff.
  - rewrite sanitize_strip. apply last_last.
Qed.

End SanitizerFacts.

(** ** The theorems at the sample inputs *)

Module Instances.
Import Data Engine Reporter Samples MoreSamples.

(** The reporter holds a failed record; a later teardown report with
    captured output leaves the reporter as it is. *)
Lemma failed_record_is_frozen_witness :
  record with_failed_record (test_name teardown_failed_late)
    = Some failed_record /\
  is_passing failed_record = false /\
  pytest_runtest_logreport work join_slash lookup_finds
    with_failed_record teardown_failed_late
  = (with_failed_record, None).
Proof.
  split; [reflexivity|]. split; [reflexivity|].
  exact (proj1 (ReporterFacts.failed_record_is_frozen work join_slash
                  lookup_finds with_failed_record teardown_failed_late
                  failed_record eq_refl eq_refl)).
Defined.

(** The captured output of a report that comes after the failure does not
    reach the record: it is not true that such a report, while leaving
    status and message, overwrites the output. *)
Lemma late_output_is_not_refreshed :
  ~ (forall cwd pj rs self report t,
       record self (test_name report) = Some t ->
       is_passing t = false ->
       capstdout report <> "" ->
       exists t',
         record (fst (pytest_runtest_logreport cwd pj rs self report))
           (test_name report) = Some t' /\
         status t' = status t /\ message t' = message t /\
         output t' = Some (capstdout report)).
Proof.
  intros H.
  destruct (H work join_slash lookup_finds with_failed_record
              teardown_failed_late failed_record eq_refl eq_refl)
    as (t' & Hr & _ & _ & Ho).
  - discriminate.
  - vm_compute in Hr. injection Hr as <-. discriminate Ho.
Qed.

(** On a configured reporter the hook raises for the failed setup report
    of a test whose fixture is missing, the representation of that failure
    having no [reprtraceback], and for a failed call report whose crash path
    is relative; on a reporter that [pytest_configure] has not reached it
    raises for a failed call report without any failure detail. *)
Lemma logreport_raises_on_unformattable_detail :
  snd (pytest_runtest_logreport work join_slash lookup_finds
         configured setup_failed_no_fixture)
  = Some (AttributeError
            "'FixtureLookupErrorRepr' object has no attribute 'reprtraceback'")
  /\
  snd (pytest_runtest_logreport work join_slash lookup_finds
         configured call_failed_in_string)
  = Some (ValueError "Can't mix absolute and relative paths")
  /\
  snd (pytest_runtest_logreport work join_slash lookup_finds
         ResultsReporter_new call_failed_bare)
  = Some (AttributeError "'NoneType' object has no attribute 'rootdir'").
Proof. repeat split. Qed.

(** The marker line [E x] rendered without a crash locator comes out as
    [x], not as the line with two leading blanks; and with a crash path
    that is relative while the working directory is absolute the formatter
    raises. *)
Lemma make_message_dedents_and_can_raise :
  _make_message work "E x" None = inr "x" /\
  _make_message work "E x" None <> inr (Text.re_sub_marker "E x") /\
  _make_message work "E x" (Some (mkCrash "<string>" 1 "boom"))
    = inl (ValueError "Can't mix absolute and relative paths").
Proof.
  split; [reflexivity|]. split; [discriminate | reflexivity].
Qed.

(** A failed setup report on a fresh record, followed by a failed call
    report and a failed teardown report: the record ends errored. *)
Lemma setup_failure_errors_witness :
  outcome setup_failed = failed /\
  fresh_or_passing configured (test_name setup_failed) = true /\
  detail_error work setup_failed = None /\
  when setup_failed = setup /\
  exists t,
    record (feed_reports work join_slash lookup_finds
              (fst (pytest_runtest_logreport work join_slash lookup_finds
                      configured setup_failed))
              [call_failed_bare; teardown_failed_late])
           (test_name setup_failed) = Some t /\
    status t = ERROR.
Proof.
  repeat (split; [reflexivity|]).
  exact (proj1 (ReporterFacts.setup_failure_errors_call_failure_fails
                  work join_slash lookup_finds configured setup_failed
                  eq_refl eq_refl eq_refl)
           eq_refl [call_failed_bare; teardown_failed_late]).
Defined.

(** A failed setup report on a fresh record does not make the record
    errored when its crash path is relative: the hook raises before the
    status is set, and the record is still passed. *)
Lemma setup_failure_in_string_stays_passed :
  ~ (forall cwd pj rs self report,
       when report = setup ->
       outcome report = failed ->
       fresh_or_passing self (test_name report) = true ->
       exists t,
         record (fst (pytest_runtest_logreport cwd pj rs self report))
           (test_name report) = Some t /\
         status t = ERROR).
Proof.
  intros H.
  destruct (H work join_slash lookup_finds configured setup_failed_in_string
              eq_refl eq_refl eq_refl) as (t & Hr & Hs).
  vm_compute in Hr. injection Hr as <-. discriminate Hs.
Qed.

(** With a crash locator whose path is relative, no common path is computed
    and nothing is replaced: [commonpath] raises. *)
Lemma relative_crash_path_is_not_relativized :
  ~ (forall cwd trace crash,
       exists common,
         PosixPath.commonpath cwd (path crash) = inr common /\
         _make_message cwd trace (Some crash)
         = inr (Text.replace common "."
                  (Text.dedent (Text.re_sub_marker trace)))).
Proof.
  intros H.
  destruct (H work "E   boom" crash_in_string) as (common & Hc & _).
  vm_compute in Hc. discriminate Hc.
Qed.

(** The paths of the specification's example. *)
Lemma make_message_relativizes_witness :
  Bool.eqb (PosixPath.isabs work) (PosixPath.isabs (path crash_in_test))
    = true /\
  PosixPath.commonpath work (path crash_in_test) = inr "/work/proj" /\
  _make_message work trace_text (Some crash_in_test)
  = inr ("    assert 1 == 2" ++ Text.nl
         ++ "./sub/test_x.py:3: AssertionError").
Proof.
  split; [reflexivity|].
  pose proof (ReporterFacts.make_message_relativizes work trace_text
                crash_in_test eq_refl) as H.
  cbv zeta in H. destruct H as (_ & _ & _ & Hc & Hm & _).
  split; [exact Hc | exact Hm].
Defined.

(** A config whose test-file list is empty, and the slug [two-fer]. *)
Lemma empty_config_list_witness :
  loads_empty_list "{}"
    = inr (Driver.JObj [("files", Driver.JObj [("test", Driver.JArr [])])]) /\
  Driver.test_list_absent_or_empty
    (Driver.JObj [("files", Driver.JObj [("test", Driver.JArr [])])]) = true /\
  Driver.resolve_test_files join_slash loads_empty_list "two-fer" "/in"
    (Some "{}") = inr ["/in/two_fer_test.py"].
Proof.
  split; [reflexivity|]. split; [reflexivity|].
  pose proof (DriverFacts.empty_config_list_falls_back_to_default
                join_slash loads_empty_list "two-fer" "/in" "{}"
                _ eq_refl eq_refl) as [H1 H2].
  exact (eq_trans H1 H2).
Defined.

(** A failed call report without a traceback representation, on a fresh
    record. *)
Lemma failure_without_traceback_witness :
  outcome call_failed_bare = failed /\
  longrepr call_failed_bare = None /\
  fresh_or_passing configured (test_name call_failed_bare) = true /\
  exists t,
    record (fst (pytest_runtest_logreport work join_slash lookup_finds
                   configured call_failed_bare))
           (test_name call_failed_bare) = Some t /\
    status t = FAIL /\ message t = None.
Proof.
  repeat (split; [reflexivity|]).
  exact (ReporterFacts.failure_without_traceback_has_no_message
           work join_slash lookup_finds configured call_failed_bare
           eq_refl eq_refl eq_refl).
Defined.

End Instances.

(** * Further properties *)

(** ** Lines, markers and margins *)

Module TextMore.
Import Text TextSpec.

Lemma split_go_cons : forall sep k s, exists h t, split_go sep k s = h :: t.
Proof.
  intros sep k s. revert k. induction s as [|c s IH]; intros k.
  - now exists "", [].
  - destruct k as [|k]; cbn [split_go]; [|apply IH].
    destruct (String.prefix sep (String c s)).
    + now eexists _, _.
    + destruct (IH 0) as (h & t & ->). now eexists _, _.
Qed.

Lemma join_cons : forall sep h p t,
  join sep (h :: p :: t) = h ++ sep ++ join sep (p :: t).
Proof. reflexivity. Qed.

Lemma join_cons_char : forall sep c h t,
  join sep (String c h :: t) = String c (join sep (h :: t)).
Proof. intros. now destruct t. Qed.

(** cutting a text into lines and joining them again gives the text *)
Lemma unlines_lines : forall s, unlines (lines s) = s.
Proof.
  unfold unlines, lines, split, nl.
  induction s as [|c s IH]; [reflexivity|].
  cbn [split_go String.length Nat.sub].
  rewrite TextFacts.prefix_cons.
  assert (Hs : String.prefix "" s = true) by now destruct s.
  rewrite Hs, andb_true_r.
  destruct (split_go_cons (String "010"%char "") 0 s) as (h & t & E).
  rewrite E in IH |- *.
  destruct (Ascii.eqb "010"%char c) eqn:Ec.
  - apply Ascii.eqb_eq in Ec. subst c. rewrite join_cons, IH. reflexivity.
  - rewrite join_cons_char, IH. reflexivity.
Qed.

Lemma sub_marker_line_length : forall line,
  String.length (sub_marker_line line) = String.length line.
Proof.
  intros line. unfold sub_marker_line, startswith.
  destruct (String.prefix "E " line) eqn:E; [|reflexivity].
  rewrite (TextFacts.prefix_split _ _ E) at 2.
  now rewrite !TextFacts.length_append.
Qed.

Lemma join_map_length : forall sep (f : string -> string) ls,
  (forall l, String.length (f l) = String.length l) ->
  String.length (join sep (map f ls)) = String.length (join sep ls).
Proof.
  intros sep f ls Hf. induction ls as [|l ls IH]; [reflexivity|].
  destruct ls as [|l' ls]; [apply Hf|].
  change (map f (l :: l' :: ls)) with (f l :: f l' :: map f ls).
  rewrite !join_cons, !TextFacts.length_append, Hf.
  change (f l' :: map f ls) with (map f (l' :: ls)). now rewrite IH.
Qed.

(** replacing the marker keeps the length of the text *)
Lemma re_sub_marker_length : forall s,
  String.length (re_sub_marker s) = String.length s.
Proof.
  intros s. unfold re_sub_marker, unlines.
  rewrite join_map_length by apply sub_marker_line_length.
  fold (unlines (lines s)). now rewrite unlines_lines.
Qed.

(** a text none of whose lines starts with the marker comes back as it is *)
Lemma re_sub_marker_plain : forall s,
  forallb (fun l => negb (startswith l "E ")) (lines s) = true ->
  re_sub_marker s = s.
Proof.
  intros s H. unfold re_sub_marker.
  rewrite <- (unlines_lines s) at 2. f_equal.
  rewrite <- (map_id (lines s)) at 2. apply map_ext_in.
  intros l Hl. rewrite forallb_forall in H. specialize (H l Hl).
  unfold sub_marker_line. apply negb_true_iff in H. now rewrite H.
Qed.

Lemma margin_step_empty : forall m, margin_step m "" = Some "".
Proof.
  intros [m|]; [|reflexivity]. unfold margin_step, startswith.
  destruct m as [|c m]; [reflexivity|]. reflexivity.
Qed.

Lemma margin_stays_empty : forall indents,
  fold_left margin_step indents (Some "") = Some "".
Proof.
  induction indents as [|i indents IH]; [reflexivity|].
  cbn [fold_left]. unfold margin_step at 2, startswith.
  assert (Hi : String.prefix "" i = true) by now destruct i.
  now rewrite Hi.
Qed.

Lemma margin_with_empty_indent : forall indents m,
  In "" indents -> fold_left margin_step indents m = Some "".
Proof.
  induction indents as [|i indents IH]; intros m Hin; [destruct Hin|].
  cbn [fold_left]. destruct Hin as [->|Hin].
  - rewrite margin_step_empty. apply margin_stays_empty.
  - now apply IH.
Qed.

(** a text with no whitespace-only line and with a line that has content
    at its very start has an empty margin: [dedent] returns it as it is *)
Lemma dedent_flush : forall text,
  forallb (fun l => negb (whitespace_only l)) (lines text) = true ->
  existsb (fun l => has_content l && (leading_ws l =? "")) (lines text)
    = true ->
  dedent text = text.
Proof.
  intros text Hw Hf. unfold dedent.
  assert (Hls : map (fun l => if whitespace_only l then "" else l)
                  (lines text) = lines text).
  { rewrite <- (map_id (lines text)) at 2. apply map_ext_in.
    intros l Hl. rewrite forallb_forall in Hw. specialize (Hw l Hl).
    apply negb_true_iff in Hw. now rewrite Hw. }
  rewrite Hls.
  apply existsb_exists in Hf as (l & Hl & Hc).
  apply andb_true_iff in Hc as [Hc He]. apply String.eqb_eq in He.
  rewrite (margin_with_empty_indent _ None).
  - apply unlines_lines.
  - rewrite <- He. apply in_map. apply filter_In. now split.
Qed.

Lemma contains_cons : forall old c s,
  contains old (String c s) = false ->
  String.prefix old (String c s) = false /\ contains old s = false.
Proof.
  intros old c s H. cbn [contains] in H. now apply orb_false_iff in H.
Qed.

(** a text that does not contain [old] is left alone by [replace] *)
Lemma replace_absent : forall o old new s,
  contains (String o old) s = false ->
  replace (String o old) new s = s.
Proof.
  intros o old new. induction s as [|c s IH]; intros H; [reflexivity|].
  apply contains_cons in H as [Hp Hc].
  rewrite TextFacts.replace_no_prefix by exact Hp. now rewrite IH.
Qed.

(** a text that does not contain the separator is one piece *)
Lemma split_absent : forall sep s,
  contains sep s = false -> split sep s = [s].
Proof.
  intros sep. unfold split. induction s as [|c s IH]; intros H.
  - reflexivity.
  - apply contains_cons in H as [Hp Hc].
    cbn [split_go]. rewrite Hp. now rewrite (IH Hc).
Qed.

Lemma split_colons_piece : forall p rest,
  has_char ":"%char p = false ->
  split_go "::" 0 (p ++ "::" ++ rest) = p :: split_go "::" 0 rest.
Proof.
  induction p as [|c p IH]; intros rest H.
  - change ("" ++ "::" ++ rest) with (String ":" (String ":" rest)).
    cbn [split_go]. rewrite !TextFacts.prefix_cons.
    assert (Hr : String.prefix "" rest = true) by now destruct rest.
    rewrite Hr. reflexivity.
  - cbn [has_char] in H. apply orb_false_iff in H as [Hc Hp].
    change (String c p ++ "::" ++ rest) with (String c (p ++ "::" ++ rest)).
    cbn [split_go]. rewrite TextFacts.prefix_cons.
    rewrite Ascii.eqb_sym, Hc. cbn [andb]. now rewrite (IH rest Hp).
Qed.

Lemma split_colons_last : forall p,
  has_char ":"%char p = false -> split_go "::" 0 p = [p].
Proof.
  induction p as [|c p IH]; intros H; [reflexivity|].
  cbn [has_char] in H. apply orb_false_iff in H as [Hc Hp].
  cbn [split_go]. rewrite TextFacts.prefix_cons.
  rewrite Ascii.eqb_sym, Hc. cbn [andb]. now rewrite (IH Hp).
Qed.

(** joining pieces free of colons with [::] and splitting at [::] gives the
    pieces back *)
Lemma split_join_colons : forall ps p,
  Forall (fun q => has_char ":"%char q = false) (p :: ps) ->
  split "::" (join "::" (p :: ps)) = p :: ps.
Proof.
  unfold split. induction ps as [|q ps IH]; intros p H.
  - apply split_colons_last. now inversion H.
  - rewrite join_cons. inversion H as [|? ? Hp Hq]; subst.
    rewrite split_colons_piece by exact Hp. now rewrite (IH q Hq).
Qed.

End TextMore.

(** ** Names of records *)

Module NamesFacts.
Import Data Engine Reporter Names.

Lemma mem_existsb : forall (V : Type) k (d : Dict.t V),
  Dict.mem k d = existsb (String.eqb k) (map fst d).
Proof.
  intros V k d. unfold Dict.mem. induction d as [|[k' v] d IH]; [reflexivity|].
  cbn [Dict.get map fst existsb]. rewrite (String.eqb_sym k k').
  destruct (k' =? k); [reflexivity | exact IH].
Qed.

Lemma keys_set : forall (V : Type) k (v : V) d,
  map fst (Dict.set k v d) = add_name (map fst d) k.
Proof.
  intros V k v d. unfold add_name. induction d as [|[k' v'] d IH]; [reflexivity|].
  cbn [Dict.set map fst existsb]. rewrite (String.eqb_sym k k').
  destruct (k' =? k); [reflexivity|].
  cbn [map fst orb]. rewrite IH.
  now destruct (existsb (String.eqb k) (map fst d)).
Qed.

Lemma add_name_known : forall known n,
  existsb (String.eqb n) known = true -> add_name known n = known.
Proof. intros known n H. unfold add_name. now rewrite H. Qed.

Lemma existsb_add_name : forall known n,
  existsb (String.eqb n) (add_name known n) = true.
Proof.
  intros known n. unfold add_name.
  destruct (existsb (String.eqb n) known) eqn:E; [exact E|].
  rewrite existsb_app. cbn. now rewrite String.eqb_refl, orb_true_r.
Qed.

Lemma add_name_twice : forall known n,
  add_name (add_name known n) n = add_name known n.
Proof. intros. apply add_name_known, existsb_add_name. Qed.

Lemma keys_tests_with : forall self k,
  map fst (tests_with self k) = add_name (map fst (tests self)) k.
Proof.
  intros self k. unfold tests_with. rewrite mem_existsb.
  destruct (existsb (String.eqb k) (map fst (tests self))) eqn:E; cbn [negb].
  - symmetry. now apply add_name_known.
  - apply keys_set.
Qed.

Lemma existsb_eqb_In : forall n l,
  existsb (String.eqb n) l = true <-> In n l.
Proof.
  intros n l. rewrite existsb_exists. split.
  - intros (x & Hx & E). apply String.eqb_eq in E. now subst.
  - intros H. exists n. split; [exact H | apply String.eqb_refl].
Qed.

Lemma add_name_In : forall known n x,
  In x (add_name known n) <-> In x known \/ x = n.
Proof.
  intros known n x. unfold add_name.
  destruct (existsb (String.eqb n) known) eqn:E.
  - apply existsb_eqb_In in E. split; [now left|].
    intros [H| ->]; assumption.
  - rewrite in_app_iff. cbn. intuition.
Qed.

Lemma add_name_NoDup : forall known n,
  NoDup known -> NoDup (add_name known n).
Proof.
  intros known n H. unfold add_name.
  destruct (existsb (String.eqb n) known) eqn:E; [exact H|].
  apply NoDup_app; [exact H | repeat constructor; intros [] |].
  intros x Hx [<-|[]].
  apply existsb_eqb_In in Hx. congruence.
Qed.

Lemma fold_add_name_In : forall names known x,
  In x (fold_left add_name names known) <-> In x known \/ In x names.
Proof.
  induction names as [|n names IH]; intros known x; cbn [fold_left].
  - cbn. intuition.
  - rewrite IH, add_name_In. cbn. intuition.
Qed.

Lemma fold_add_name_NoDup : forall names known,
  NoDup known -> NoDup (fold_left add_name names known).
Proof.
  induction names as [|n names IH]; intros known H; [exact H|].
  cbn [fold_left]. now apply IH, add_name_NoDup.
Qed.

Lemma get_filed : forall d k t,
  filed_by_name d -> Dict.get k d = Some t -> name t = k.
Proof.
  intros d k t H. unfold filed_by_name in H.
  induction H as [|[k' v] d Hkv _ IH]; [discriminate|].
  cbn [Dict.get]. destruct (k' =? k) eqn:E; [|exact IH].
  apply String.eqb_eq in E. intros [= <-]. cbn in Hkv. congruence.
Qed.

Lemma set_filed : forall d k t,
  filed_by_name d -> name t = k -> filed_by_name (Dict.set k t d).
Proof.
  intros d k t H Ht. unfold filed_by_name in *.
  induction H as [|[k' v] d Hkv Hd IH]; cbn [Dict.set].
  - now repeat constructor.
  - destruct (k' =? k) eqn:E.
    + apply String.eqb_eq in E. subst k'. now constructor.
    + now constructor.
Qed.

Lemma values_filed : forall d,
  filed_by_name d -> map name (Dict.values d) = map fst d.
Proof.
  intros d H. unfold Dict.values. rewrite map_map.
  apply map_ext_in. intros kv Hkv.
  unfold filed_by_name in H. rewrite Forall_forall in H. now apply H.
Qed.

End NamesFacts.

(** ** More on the reporter *)

Module ReporterMore.
Import Data Engine Reporter Names.

Lemma contains_empty : forall s, TextSpec.contains "" s = true.
Proof. intros s. destruct s; reflexivity. Qed.

(** The test name is the node id without its module segment, the other
    segments joined by dots: for segments free of colons,
    [mod::Class::test] is named [Class.test], whatever the module. *)
Theorem test_name_drops_module : forall report m ps,
  nodeid report = Text.join "::" (m :: ps) ->
  Forall (fun q => TextSpec.has_char ":"%char q = false) (m :: ps) ->
  test_name report = Text.join "." ps.
Proof.
  intros report m ps E H. unfold test_name.
  now rewrite E, TextMore.split_join_colons.
Qed.

(** A node id without [::], as a report on a whole module has it, gives the
    empty name: all such reports share the record named by the empty
    string. *)
Theorem test_name_of_module_is_empty : forall report,
  TextSpec.contains "::" (nodeid report) = false ->
  test_name report = "".
Proof.
  intros report H. unfold test_name.
  now rewrite TextMore.split_absent.
Qed.

(** A trace with no marker line, no whitespace-only line and a line that
    starts with content, which does not contain the common path of the
    working directory and the crash path when there is a crash locator, is
    the message as it stands. *)
Theorem make_message_keeps_plain_trace : forall cwd trace crash,
  forallb (fun l => negb (Text.startswith l "E ")) (Text.lines trace) = true ->
  forallb (fun l => negb (Text.whitespace_only l)) (Text.lines trace) = true ->
  existsb (fun l => Text.has_content l && (Text.leading_ws l =? ""))
          (Text.lines trace) = true ->
  (forall c, crash = Some c ->
     exists common, PosixPath.commonpath cwd (path c) = inr common /\
                    TextSpec.contains common trace = false) ->
  _make_message cwd trace crash = inr trace.
Proof.
  intros cwd trace crash Hm Hw Hf Hc. unfold _make_message.
  rewrite (TextMore.re_sub_marker_plain trace Hm).
  rewrite (TextMore.dedent_flush trace Hw Hf).
  destruct crash as [c|]; [|reflexivity].
  destruct (Hc c eq_refl) as (common & -> & Hn).
  destruct common as [|o common].
  - now rewrite contains_empty in Hn.
  - now rewrite TextMore.replace_absent.
Qed.

(** When an absolute crash path shares no leading directory with the
    absolute working directory, their common path is the root, and every
    slash of the rendered text becomes a dot. *)
Theorem make_message_without_common_directory : forall cwd trace crash,
  PosixPath.isabs cwd = true ->
  PosixPath.isabs (path crash) = true ->
  PosixPath.lcp (PosixPath.components cwd)
                (PosixPath.components (path crash)) = [] ->
  _make_message cwd trace (Some crash)
  = inr (Text.map_chars
           (fun c => if Ascii.eqb c "/"%char then "."%char else c)
           (Text.dedent (Text.re_sub_marker trace))).
Proof.
  intros cwd trace crash Hc Hp Hl.
  rewrite ReporterFacts.make_message_eq, Hc, Hp, Hl. cbn [Bool.eqb Text.join].
  change ("/" ++ "") with "/". now rewrite TextFacts.replace_char.
Qed.

Section Hooks.

Variable cwd : string.
Variable path_join : string -> string -> string.
Variable resolve_source : string -> string -> exn + string.

Local Abbreviation logreport :=
  (pytest_runtest_logreport cwd path_join resolve_source).
Local Abbreviation feed := (feed_reports cwd path_join resolve_source).

Lemma record_store : forall self k st d,
  record (set_tests self (Dict.set k st d)) k = Some st.
Proof. intros. unfold record. cbn. apply DictFacts.get_set_same. Qed.

(** A passed setup or teardown report raises nothing and leaves a record
    for its name: a fresh passing one if the name is new, and otherwise the
    reporter is exactly as it was. *)
Theorem passed_setup_or_teardown_only_creates : forall self report,
  outcome report = passed ->
  when report <> call ->
  snd (logreport self report) = None /\
  record (fst (logreport self report)) (test_name report)
    = Some (state_of self (test_name report)) /\
  (Dict.mem (test_name report) (tests self) = true ->
   fst (logreport self report) = self).
Proof.
  intros self report Ho Hw. rewrite ReporterFacts.logreport_eq. cbv zeta.
  rewrite Ho. assert (Hc : Phase_eqb (when report) call = false)
    by (destruct (when report); [reflexivity | now elim Hw | reflexivity]).
  rewrite Hc. cbn [Outcome_eqb negb andb fst snd].
  split; [reflexivity|]. split.
  - unfold record. cbn. apply ReporterFacts.get_tests_with.
  - intros Hm. unfold tests_with. rewrite Hm. cbn [negb].
    apply ReporterFacts.set_tests_id.
Qed.

(** A report that is not a failure and gets past the two guards (a passed
    call report, or a skipped report of any phase), on a configured reporter
    and a record that is fresh or passing: nothing is raised, the record
    stays passed with its message, takes the captured output if that is not
    empty and keeps its output otherwise, and gets the source text the
    lookup gives. *)
Theorem unfailed_report_keeps_passing : forall self report cfg,
  config self = Some cfg ->
  fresh_or_passing self (test_name report) = true ->
  outcome report <> failed ->
  (outcome report = passed -> when report = call) ->
  snd (logreport self report) = None /\
  exists t,
    record (fst (logreport self report)) (test_name report) = Some t /\
    status t = PASS /\
    message t = message (state_of self (test_name report)) /\
    output t = (if capstdout report =? ""
                then output (state_of self (test_name report))
                else Some (capstdout report)) /\
    test_code t = function_source resolve_source
                    (Hierarchy (nodeid report))
                    (path_join (rootdir cfg) (fspath report)).
Proof.
  intros self report cfg Hc Hp Ho Hw. rewrite ReporterFacts.logreport_eq.
  cbv zeta. unfold fresh_or_passing in Hp. rewrite Hp. cbn [negb].
  assert (Hg : Outcome_eqb (outcome report) passed
               && negb (Phase_eqb (when report) call) = false).
  { destruct (outcome report) eqn:E; try reflexivity.
    rewrite (Hw eq_refl). reflexivity. }
  rewrite Hg. unfold handle_failure.
  assert (Hf : Outcome_eqb (outcome report) failed = false)
    by (destruct (outcome report); [reflexivity | now elim Ho | reflexivity]).
  rewrite Hf. unfold attach_source. rewrite Hc. cbn [fst snd].
  split; [reflexivity|]. eexists. split; [apply record_store|].
  unfold is_passing in Hp.
  destruct (capstdout report =? ""); cbn;
    destruct (status (state_of self (test_name report)));
    try discriminate; repeat split.
Qed.

(** A failed report whose crash path cannot be compared with the working
    directory (one absolute, the other relative) makes the hook raise the
    formatter's ValueError before the failure is recorded: the record, fresh
    or passing before, is still passed afterwards, with its message
    unchanged. *)
Theorem unformattable_failure_is_not_recorded : forall self report,
  fresh_or_passing self (test_name report) = true ->
  outcome report = failed ->
  crash_path_like_cwd cwd report = false ->
  snd (logreport self report)
    = Some (ValueError "Can't mix absolute and relative paths") /\
  exists t,
    record (fst (logreport self report)) (test_name report) = Some t /\
    status t = PASS /\
    message t = message (state_of self (test_name report)).
Proof.
  intros self report Hp Ho Hk. rewrite ReporterFacts.logreport_eq. cbv zeta.
  unfold fresh_or_passing in Hp. rewrite Hp, Ho.
  cbn [Outcome_eqb andb negb]. unfold handle_failure, failure_message.
  rewrite Ho. cbn [Outcome_eqb].
  unfold crash_path_like_cwd in Hk.
  destruct (longrepr report) as [[lr|text|ty]|]; try discriminate.
  rewrite ReporterFacts.make_message_eq.
  destruct (reprcrash lr) as [c|]; [|discriminate]. rewrite Hk.
  cbn [fst snd]. split; [reflexivity|].
  eexists. split; [apply record_store|].
  unfold is_passing in Hp.
  destruct (negb (capstdout report =? "")); cbn;
    destruct (status (state_of self (test_name report)));
    try discriminate; now split.
Qed.

Lemma keys_logreport : forall self report,
  map fst (tests (fst (logreport self report)))
  = add_name (map fst (tests self)) (test_name report).
Proof.
  intros self report. rewrite ReporterFacts.logreport_eq. cbv zeta.
  assert (H1 := NamesFacts.keys_tests_with self (test_name report)).
  assert (H2 : forall st,
    map fst (Dict.set (test_name report) st
               (tests_with self (test_name report)))
    = add_name (map fst (tests self)) (test_name report)).
  { intros st. rewrite NamesFacts.keys_set, H1.
    apply NamesFacts.add_name_twice. }
  destruct (_ && _); [exact H1|].
  destruct (negb (is_passing _)); [exact H1|].
  destruct (handle_failure _ _ _); [apply H2|].
  destruct (attach_source _ _ _ _ _); apply H2.
Qed.

Lemma keys_feed : forall reports self,
  map fst (tests (feed self reports))
  = fold_left add_name (map test_name reports) (map fst (tests self)).
Proof.
  unfold feed_reports.
  induction reports as [|r reports IH]; intros self; [reflexivity|].
  cbn [fold_left map]. now rewrite IH, keys_logreport.
Qed.

Lemma handle_failure_name : forall state report state',
  handle_failure cwd state report = inr state' -> name state' = name state.
Proof.
  intros state report state'. unfold handle_failure.
  destruct (Outcome_eqb _ _); [|now intros [= <-]].
  destruct (failure_message cwd report); [discriminate|].
  destruct (negb _); now intros [= <-].
Qed.

Lemma attach_source_name : forall self state report state',
  attach_source path_join resolve_source self state report = inr state' ->
  name state' = name state.
Proof.
  intros self state report state'. unfold attach_source.
  destruct (config self); [|discriminate]. now intros [= <-].
Qed.

Lemma state_of_name : forall self k,
  filed_by_name (tests self) -> name (state_of self k) = k.
Proof.
  intros self k H. unfold state_of, record.
  destruct (Dict.get k (tests self)) eqn:E; [|reflexivity].
  now apply (NamesFacts.get_filed (tests self)).
Qed.

Lemma tests_with_filed : forall self k,
  filed_by_name (tests self) -> filed_by_name (tests_with self k).
Proof.
  intros self k H. unfold tests_with.
  destruct (negb _); [|exact H]. now apply NamesFacts.set_filed.
Qed.

Lemma logreport_filed : forall self report,
  filed_by_name (tests self) ->
  filed_by_name (tests (fst (logreport self report))).
Proof.
  intros self report H. rewrite ReporterFacts.logreport_eq. cbv zeta.
  pose proof (tests_with_filed self (test_name report) H) as H1.
  pose proof (state_of_name self (test_name report) H) as Hn.
  assert (H2 : forall st, name st = test_name report ->
    filed_by_name (Dict.set (test_name report) st
                     (tests_with self (test_name report))))
    by (intros; now apply NamesFacts.set_filed).
  destruct (_ && _); [exact H1|].
  destruct (negb (is_passing _)); [exact H1|].
  set (state1 := if negb (capstdout report =? "") then _ else _).
  assert (Hn1 : name state1 = test_name report)
    by (subst state1; now destruct (negb _)).
  destruct (handle_failure cwd state1 report) as [e|state2] eqn:E2;
    [now apply H2|].
  pose proof (handle_failure_name _ _ _ E2) as Hn2.
  destruct (attach_source _ _ _ _ _) as [e|state3] eqn:E3; cbn.
  - apply H2. congruence.
  - apply H2. rewrite (attach_source_name _ _ _ _ E3). congruence.
Qed.

Lemma feed_filed : forall reports self,
  filed_by_name (tests self) -> filed_by_name (tests (feed self reports)).
Proof.
  unfold feed_reports.
  induction reports as [|r reports IH]; intros self H; [exact H|].
  cbn [fold_left]. now apply IH, logreport_filed.
Qed.

(** The records are kept in the order in which their names first came up:
    whatever reports a reporter handles, it ends with one record for each
    name it had or was sent, the new names after the old ones in the order
    of their first report, no name twice; and every record is filed under
    the name it carries. *)
Theorem one_record_per_name_in_first_seen_order : forall self reports,
  map fst (tests (feed self reports))
    = fold_left add_name (map test_name reports) (map fst (tests self)) /\
  map fst (tests (feed ResultsReporter_new reports))
    = first_seen (map test_name reports) /\
  NoDup (first_seen (map test_name reports)) /\
  Forall (fun n => In n (map test_name reports))
         (first_seen (map test_name reports)) /\
  Forall (fun n => In n (first_seen (map test_name reports)))
         (map test_name reports) /\
  filed_by_name (tests (feed ResultsReporter_new reports)).
Proof.
  intros self reports.
  split; [apply keys_feed|]. split; [apply keys_feed|].
  split; [apply NamesFacts.fold_add_name_NoDup; constructor|].
  split; [|split].
  - apply Forall_forall. intros n Hn.
    apply NamesFacts.fold_add_name_In in Hn as [[]|Hn]. exact Hn.
  - apply Forall_forall. intros n Hn.
    apply NamesFacts.fold_add_name_In. now right.
  - apply feed_filed. constructor.
Qed.

(** The report hook touches the test records only: the results, the
    fallback message and the configuration are as before, whatever the
    report and whether or not the hook raises. *)
Theorem logreport_touches_tests_only : forall self report,
  let after :=
    fst (pytest_runtest_logreport cwd path_join resolve_source self report) in
  results after = results self /\
  last_err after = last_err self /\
  config after = config self.
Proof.
  intros self report after. subst after.
  rewrite ReporterFacts.logreport_eq. cbv zeta.
  destruct (_ && _); [now repeat split|].
  destruct (negb (is_passing _)); [now repeat split|].
  destruct (handle_failure _ _ _); [now repeat split|].
  destruct (attach_source _ _ _ _ _); now repeat split.
Qed.

(** From a fresh reporter, through any reports, to the end of the session
    with any exit status: the results list one test per name reported, in
    the order in which the names first came up. *)
Theorem results_list_each_name_once : forall reports ec,
  map name
    (r_tests (results (fst (pytest_sessionfinish
       (feed ResultsReporter_new reports) (ExitCode_value ec)))))
  = first_seen (map test_name reports).
Proof.
  intros reports ec.
  assert (H : r_tests (results (fst (pytest_sessionfinish
                (feed ResultsReporter_new reports) (ExitCode_value ec))))
              = Dict.values (tests (feed ResultsReporter_new reports))).
  { destruct ec; cbn; rewrite SessionFacts.fold_add; cbn;
      now rewrite SessionFacts.feed_results. }
  rewrite H, NamesFacts.values_filed by (apply feed_filed; constructor).
  apply keys_feed.
Qed.

End Hooks.

End ReporterMore.

(** ** The fallback message and the end of the session *)

Module SessionMore.
Import Data Engine Reporter.

(** The last formatted engine fault wins and is what an error exit reports:
    after two failed interactions, the second of which the formatter can
    render, an exit status other than OK and TESTS_FAILED ends with the
    overall status errored and the message of the second, whatever the
    first was. *)
Theorem last_fault_is_the_error_message :
  forall cwd self trace1 crash1 trace2 crash2 msg ec,
  _make_message cwd trace2 crash2 = inr msg ->
  ExitCode_eqb ec OK = false ->
  ExitCode_eqb ec TESTS_FAILED = false ->
  let s1 := fst (pytest_exception_interact cwd self failed trace1 crash1) in
  let s2 := fst (pytest_exception_interact cwd s1 failed trace2 crash2) in
  let out := results (fst (pytest_sessionfinish s2 (ExitCode_value ec))) in
  r_status out = ERROR /\ r_message out = Some msg.
Proof.
  intros cwd self trace1 crash1 trace2 crash2 msg ec Hm Hok Hfail s1 s2 out.
  assert (E : s2 = set_last_err s1 (Some msg)).
  { subst s2. unfold pytest_exception_interact.
    cbn [Outcome_eqb]. now rewrite Hm. }
  subst out. rewrite E.
  destruct ec; try discriminate; cbn; rewrite SessionFacts.fold_add;
    now split.
Qed.

(** An engine fault whose crash path cannot be compared with the working
    directory leaves no fallback message: the interaction hook raises the
    formatter's ValueError, and an error exit of a reporter that has seen
    nothing else reports the message made from the name of the exit
    status. *)
Theorem unformattable_fault_leaves_generic_message :
  forall cwd trace crash ec,
  Bool.eqb (PosixPath.isabs cwd) (PosixPath.isabs (path crash)) = false ->
  ExitCode_eqb ec OK = false ->
  ExitCode_eqb ec TESTS_FAILED = false ->
  let hit := pytest_exception_interact cwd ResultsReporter_new failed trace
               (Some crash) in
  let out := results (fst (pytest_sessionfinish (fst hit)
                             (ExitCode_value ec))) in
  snd hit = Some (ValueError "Can't mix absolute and relative paths") /\
  r_status out = ERROR /\
  r_message out
    = Some ("Unexpected ExitCode." ++ ExitCode_name ec
            ++ ": check logs for details").
Proof.
  intros cwd trace crash ec Hk Hok Hfail hit out.
  assert (E : hit = (ResultsReporter_new,
                     Some (ValueError "Can't mix absolute and relative paths"))).
  { subst hit. unfold pytest_exception_interact. cbn [Outcome_eqb].
    rewrite ReporterFacts.make_message_eq. now rewrite Hk. }
  subst out. rewrite E. cbn [fst snd]. split; [reflexivity|].
  destruct ec; try discriminate; now split.
Qed.

End SessionMore.

(** ** More on the sanitizer *)

Module SanitizerMore.
Import Sanitizer.

Lemma strip_tb_app_clean : forall pre l,
  Forall (fun a => is_tb_flag a = false) pre ->
  strip_tb (pre ++ l) = (pre ++ strip_tb l)%list.
Proof.
  induction 1 as [|a pre Ha _ IH]; [reflexivity|].
  unfold is_tb_flag in Ha. apply orb_false_iff in Ha as [Ea Ep].
  cbn [app strip_tb]. now rewrite Ea, Ep, IH.
Qed.

Lemma Subseq_length : forall (A : Type) (xs ys : list A),
  Subseq xs ys -> length xs <= length ys.
Proof. induction 1; simpl; lia. Qed.

(** Sanitizing is idempotent: the [--tb=no] it appends is taken out and
    appended again by a second pass, and nothing else changes.  The result
    is never empty and at most one longer than the input. *)
Theorem sanitize_args_idempotent : forall args,
  _sanitize_args (_sanitize_args args) = _sanitize_args args /\
  1 <= length (_sanitize_args args) <= length args + 1.
Proof.
  intros args.
  destruct (SanitizerFacts.strip_tb_props (length args) args (le_n _))
    as [Hs Hf].
  rewrite !SanitizerFacts.sanitize_strip. split.
  - rewrite strip_tb_app_clean by exact Hf.
    change (strip_tb ["--tb=no"]) with (@nil string).
    now rewrite app_nil_r.
  - rewrite length_app. cbn [length].
    pose proof (Subseq_length _ _ _ Hs). lia.
Qed.

(** After arguments that hold no flag, a bare [--tb] takes the next token
    with it whatever that token is, and a bare [--tb] at the very end is
    dropped alone. *)
Theorem bare_tb_swallows_next_token : forall args value rest,
  let pre := filter (fun a => negb (is_tb_flag a)) args in
  _sanitize_args (pre ++ "--tb" :: value :: rest)
    = (pre ++ _sanitize_args rest)%list /\
  _sanitize_args (pre ++ ["--tb"]) = (pre ++ ["--tb=no"])%list.
Proof.
  intros args value rest pre.
  assert (Hp : Forall (fun a => is_tb_flag a = false) pre).
  { apply Forall_forall. intros a Ha.
    apply filter_In in Ha as [_ Ha]. now apply negb_true_iff. }
  rewrite !SanitizerFacts.sanitize_strip.
  rewrite !strip_tb_app_clean by exact Hp.
  cbn. split; [now rewrite <- app_assoc | now rewrite app_nil_r].
Qed.

End SanitizerMore.

(** ** More on the driver *)

Module DriverMore.
Import Driver DriverSpec.

Lemma join_all_strings : forall joinpath indir names,
  join_all joinpath indir (map JStr names)
  = inr (map (joinpath indir) names).
Proof.
  intros joinpath indir. induction names as [|n names IH]; [reflexivity|].
  cbn [map join_all]. now rewrite IH.
Qed.

(** A config that gives a non-empty list of file names makes the driver
    run exactly those files, each joined to the input directory, in the
    order of the list; the default file is not added.  The engine gets the
    sanitized arguments followed by these files, and the run ends with the
    results written and their mode changed. *)
Theorem config_list_is_used_in_order :
  forall joinpath json_loads pytest_main as_json
         slug indir outdir args text members files n names,
  json_loads text = inr (JObj members) ->
  Dict.get "files" members = Some (JObj files) ->
  Dict.get "test" files = Some (JArr (map JStr (n :: names))) ->
  resolve_test_files joinpath json_loads slug indir (Some text)
    = inr (map (joinpath indir) (n :: names)) /\
  run joinpath json_loads pytest_main as_json slug indir outdir args
      (Some text)
  = inr [WriteText (joinpath outdir "results.json")
           (as_json (Reporter.results
              (pytest_main
                 (Sanitizer._sanitize_args
                    (match args with Some l => l | None => [] end)
                  ++ map (joinpath indir) (n :: names))%list
                 Reporter.ResultsReporter_new)));
         Chmod (joinpath outdir "results.json") 664].
Proof.
  intros joinpath json_loads pytest_main as_json
         slug indir outdir args text members files n names Hl Hf Ht.
  assert (Hr : resolve_test_files joinpath json_loads slug indir (Some text)
               = inr (map (joinpath indir) (n :: names))).
  { unfold resolve_test_files. rewrite Hl.
    unfold config_test_files, config_test_entry, Dict.get_default.
    rewrite Hf, Ht. rewrite join_all_strings. reflexivity. }
  split; [exact Hr|]. unfold run. rewrite Hr.
  now destruct args as [[|a l]|].
Qed.

(** A config file that cannot be parsed, or that holds something other
    than an object, makes the run raise before the engine is started:
    nothing is written. *)
Theorem run_aborts_on_unusable_config :
  forall joinpath json_loads pytest_main as_json
         slug indir outdir args text,
  ((exists e, json_loads text = inl e) \/
   (exists j, json_loads text = inr j /\ is_object j = false)) ->
  exists e,
    run joinpath json_loads pytest_main as_json slug indir outdir args
        (Some text) = inl e.
Proof.
  intros joinpath json_loads pytest_main as_json
         slug indir outdir args text [[e H]|[j [H Hj]]];
    unfold run, resolve_test_files; rewrite H.
  - now exists e.
  - destruct j; try discriminate; now eexists.
Qed.

End DriverMore.

(** ** The order of the collected items *)

Module CollectionFacts.
Import Collection.

Section SortByKey.

Variable A : Type.
Variable key : A -> Z.

Lemma insert_by_perm : forall x l, Permutation (x :: l) (insert_by A key x l).
Proof.
  intros x. induction l as [|y l IH]; [apply Permutation_refl|].
  cbn [insert_by]. destruct (key x <=? key y)%Z; [apply Permutation_refl|].
  eapply perm_trans; [apply perm_swap|]. now apply perm_skip.
Qed.

Lemma sort_by_perm : forall l, Permutation l (sort_by A key l).
Proof.
  induction l as [|x l IH]; [constructor|].
  cbn [sort_by fold_right]. eapply perm_trans; [|apply insert_by_perm].
  now apply perm_skip.
Qed.

Lemma insert_by_hd : forall x y l,
  (key y <= key x)%Z ->
  HdRel (fun a b => (key a <= key b)%Z) y l ->
  HdRel (fun a b => (key a <= key b)%Z) y (insert_by A key x l).
Proof.
  intros x y l Hyx H. destruct l as [|z l]; cbn [insert_by].
  - now constructor.
  - destruct (key x <=? key z)%Z; constructor; [exact Hyx|].
    now inversion H.
Qed.

Lemma insert_by_sorted : forall x l,
  Sorted (fun a b => (key a <= key b)%Z) l ->
  Sorted (fun a b => (key a <= key b)%Z) (insert_by A key x l).
Proof.
  intros x l H. induction H as [|y l Hs IH Hh]; cbn [insert_by].
  - repeat constructor.
  - destruct (key x <=? key y)%Z eqn:E.
    + apply Z.leb_le in E. repeat constructor; assumption.
    + apply Z.leb_gt in E. constructor; [exact IH|].
      apply insert_by_hd; [lia | exact Hh].
Qed.

Lemma sort_by_sorted : forall l,
  Sorted (fun a b => (key a <= key b)%Z) (sort_by A key l).
Proof.
  induction l as [|x l IH]; [constructor|].
  cbn [sort_by fold_right]. now apply insert_by_sorted.
Qed.

Lemma insert_by_filter : forall k x l,
  filter (fun a => (key a =? k)%Z) (insert_by A key x l)
  = filter (fun a => (key a =? k)%Z) (x :: l).
Proof.
  intros k x. induction l as [|y l IH]; [reflexivity|].
  cbn [insert_by]. destruct (key x <=? key y)%Z eqn:E; [reflexivity|].
  apply Z.leb_gt in E. cbn [filter] in IH |- *. rewrite IH.
  destruct (key x =? k)%Z eqn:Ex; [|reflexivity].
  apply Z.eqb_eq in Ex.
  assert (Ey : (key y =? k)%Z = false) by (apply Z.eqb_neq; lia).
  now rewrite Ey.
Qed.

Lemma sort_by_filter : forall k l,
  filter (fun a => (key a =? k)%Z) (sort_by A key l)
  = filter (fun a => (key a =? k)%Z) l.
Proof.
  intros k. induction l as [|x l IH]; [reflexivity|].
  cbn [sort_by fold_right]. rewrite insert_by_filter.
  cbn [filter]. fold (sort_by A key l). now rewrite IH.
Qed.

End SortByKey.

(** The hook leaves the collected items rearranged, none lost and none
    added, in ascending order of the line their test is defined on, and
    items of the same line in the order they had. *)
Theorem modifyitems_sorts_stably : forall lineno items,
  let sorted := pytest_collection_modifyitems lineno items in
  Permutation items sorted /\
  Sorted (fun a b => (_sort_by_lineno lineno a <= _sort_by_lineno lineno b)%Z)
         sorted /\
  forall line,
    filter (fun a => (_sort_by_lineno lineno a =? line)%Z) sorted
    = filter (fun a => (_sort_by_lineno lineno a =? line)%Z) items.
Proof.
  intros lineno items sorted. subst sorted.
  unfold pytest_collection_modifyitems.
  split; [apply sort_by_perm|]. split; [apply sort_by_sorted|].
  intros line. apply sort_by_filter.
Qed.

End CollectionFacts.

(** ** The further properties at the sample inputs *)

Module MoreInstances.
Import Data Engine Reporter Samples MoreSamples.

Lemma test_name_drops_module_witness :
  nodeid setup_failed = Text.join "::" ["sub/test_x.py"; "T"; "test_a"] /\
  test_name setup_failed = "T.test_a".
Proof.
  split; [reflexivity|].
  apply (ReporterMore.test_name_drops_module setup_failed
           "sub/test_x.py" ["T"; "test_a"]).
  - reflexivity.
  - repeat constructor.
Defined.

Lemma test_name_of_module_is_empty_witness :
  TextSpec.contains "::" (nodeid module_failed) = false /\
  test_name module_failed = "".
Proof.
  split; [reflexivity|].
  apply (ReporterMore.test_name_of_module_is_empty module_failed).
  reflexivity.
Defined.

Lemma make_message_keeps_plain_trace_witness :
  PosixPath.commonpath work (path crash_in_test) = inr "/work/proj" /\
  TextSpec.contains "/work/proj" plain_trace = false /\
  _make_message work plain_trace (Some crash_in_test) = inr plain_trace.
Proof.
  split; [reflexivity|]. split; [reflexivity|].
  apply (ReporterMore.make_message_keeps_plain_trace work plain_trace
           (Some crash_in_test)); try reflexivity.
  intros c E. injection E as <-. exists "/work/proj". split; reflexivity.
Defined.

Lemma make_message_without_common_directory_witness :
  PosixPath.isabs work = true /\
  PosixPath.isabs (path crash_elsewhere) = true /\
  _make_message work plain_trace (Some crash_elsewhere)
  = inr "ImportError in .usr.lib.python3.site.py".
Proof.
  split; [reflexivity|]. split; [reflexivity|].
  exact (ReporterMore.make_message_without_common_directory work plain_trace
           crash_elsewhere eq_refl eq_refl eq_refl).
Defined.

Lemma passed_setup_only_creates_witness :
  outcome passed_setup = passed /\
  when passed_setup <> call /\
  pytest_runtest_logreport work join_slash lookup_finds
    with_failed_record passed_setup = (with_failed_record, None).
Proof.
  split; [reflexivity|]. split; [discriminate|].
  destruct (ReporterMore.passed_setup_or_teardown_only_creates
              work join_slash lookup_finds with_failed_record passed_setup
              eq_refl ltac:(discriminate)) as (Hs & _ & Hf).
  specialize (Hf eq_refl).
  destruct (pytest_runtest_logreport work join_slash lookup_finds
              with_failed_record passed_setup) as [r e].
  cbn [fst snd] in Hs, Hf. now rewrite Hs, Hf.
Defined.

Lemma skipped_report_keeps_passing_witness :
  config configured = Some (mkConfig work) /\
  fresh_or_passing configured (test_name skipped_setup) = true /\
  outcome skipped_setup <> failed /\
  exists t,
    record (fst (pytest_runtest_logreport work join_slash lookup_finds
                   configured skipped_setup))
           (test_name skipped_setup) = Some t /\
    status t = PASS /\ output t = Some "printed".
Proof.
  split; [reflexivity|]. split; [reflexivity|]. split; [discriminate|].
  destruct (ReporterMore.unfailed_report_keeps_passing
              work join_slash lookup_finds configured skipped_setup
              (mkConfig work) eq_refl eq_refl ltac:(discriminate)
              ltac:(discriminate))
    as (_ & t & Hr & Hs & _ & Ho & _).
  exists t. split; [exact Hr|]. split; [exact Hs | exact Ho].
Defined.

Lemma unformattable_failure_is_not_recorded_witness :
  fresh_or_passing configured (test_name call_failed_in_string) = true /\
  outcome call_failed_in_string = failed /\
  crash_path_like_cwd work call_failed_in_string = false /\
  exists t,
    record (fst (pytest_runtest_logreport work join_slash lookup_finds
                   configured call_failed_in_string))
           (test_name call_failed_in_string) = Some t /\
    status t = PASS.
Proof.
  repeat (split; [reflexivity|]).
  destruct (ReporterMore.unformattable_failure_is_not_recorded
              work join_slash lookup_finds configured call_failed_in_string
              eq_refl eq_refl eq_refl) as (_ & t & Hr & Hs & _).
  exists t. now split.
Defined.

Lemma last_fault_is_the_error_message_witness :
  _make_message work plain_trace None = inr plain_trace /\
  ExitCode_eqb INTERNAL_ERROR OK = false /\
  ExitCode_eqb INTERNAL_ERROR TESTS_FAILED = false /\
  r_message (results (fst (pytest_sessionfinish
     (fst (pytest_exception_interact work
        (fst (pytest_exception_interact work configured failed
                "E   first" (Some crash_in_string)))
        failed plain_trace None))
     (ExitCode_value INTERNAL_ERROR)))) = Some plain_trace.
Proof.
  repeat (split; [reflexivity|]).
  exact (proj2 (SessionMore.last_fault_is_the_error_message work configured
                  "E   first" (Some crash_in_string) plain_trace None
                  plain_trace INTERNAL_ERROR eq_refl eq_refl eq_refl)).
Defined.

Lemma unformattable_fault_leaves_generic_message_witness :
  Bool.eqb (PosixPath.isabs work) (PosixPath.isabs (path crash_in_string))
    = false /\
  ExitCode_eqb INTERRUPTED OK = false /\
  ExitCode_eqb INTERRUPTED TESTS_FAILED = false /\
  r_message (results (fst (pytest_sessionfinish
     (fst (pytest_exception_interact work ResultsReporter_new failed
             "E   boom" (Some crash_in_string)))
     (ExitCode_value INTERRUPTED))))
  = Some "Unexpected ExitCode.INTERRUPTED: check logs for details".
Proof.
  repeat (split; [reflexivity|]).
  exact (proj2 (proj2 (SessionMore.unformattable_fault_leaves_generic_message
                         work "E   boom" crash_in_string INTERRUPTED
                         eq_refl eq_refl eq_refl))).
Defined.

Lemma config_list_is_used_in_order_witness :
  loads_two_files "{}"
    = inr (Driver.JObj
             [("files", Driver.JObj
                 [("test", Driver.JArr [Driver.JStr "a_test.py";
                                        Driver.JStr "b_test.py"])])]) /\
  Driver.resolve_test_files join_slash loads_two_files "two-fer" "/in"
    (Some "{}") = inr ["/in/a_test.py"; "/in/b_test.py"].
Proof.
  split; [reflexivity|].
  exact (proj1 (DriverMore.config_list_is_used_in_order
                  join_slash loads_two_files engine_idle to_json
                  "two-fer" "/in" "/out" None "{}" _ _ "a_test.py"
                  ["b_test.py"] eq_refl eq_refl eq_refl)).
Defined.

Lemma run_aborts_on_unusable_config_witness :
  loads_fails "{" = inl JSONDecodeError /\
  exists e,
    Driver.run join_slash loads_fails engine_idle to_json
      "two-fer" "/in" "/out" None (Some "{") = inl e.
Proof.
  split; [reflexivity|].
  apply (DriverMore.run_aborts_on_unusable_config
           join_slash loads_fails engine_idle to_json
           "two-fer" "/in" "/out" None "{").
  left. exists JSONDecodeError. reflexivity.
Defined.

End MoreInstances.
